(** * Embeddings instrumentation wrappers

    A shallow embedding of
    [opentelemetry/instrumentation/openai/shared/embeddings_wrappers.py]:
    the metrics wrapper, the synchronous and asynchronous tracing wrappers
    and the request/response/prompt helpers, together with the properties
    the specification states about them.

    Python values are an inductive type; a computation is a function from
    a world (the state of the external collaborators plus the trace of
    telemetry operations performed so far) to an outcome (a value or a
    raised exception) and a new world. *)

From Stdlib Require Import List String Ascii ZArith QArith Bool Lia.
From Stdlib Require Import DecimalString DecimalNat.
Import ListNotations.

Set Warnings "-register-all".
Local Open Scope list_scope.
Local Open Scope string_scope.

(** ** Python values *)

(** Dictionaries are association lists in insertion order with string
    keys (the keys of keyword arguments and of JSON-shaped responses);
    floats are abstracted by rationals; [VObject] is an instance of a
    class with no special methods (a typed response object before it is
    converted to a mapping). *)
Inductive value : Type :=
| VNone
| VBool (b : bool)
| VInt (z : Z)
| VFloat (q : Q)
| VStr (s : string)
| VList (items : list value)
| VDict (entries : list (string * value))
| VObject (class_name : string) (ident : nat).

Definition attrs : Type := list (string * value).

(** ** Exceptions *)

(** [exc_class] is [e.__class__.__name__], [exc_bases] the names of the
    proper base classes, [exc_message] is [str(e)]. *)
Record exn : Type := mk_exn {
  exc_class : string;
  exc_bases : list string;
  exc_message : string
}.

(** [isinstance(e, Exception)]: what an [except Exception] clause catches. *)
Definition isinstance_Exception (e : exn) : bool :=
  existsb (String.eqb "Exception") (exc_class e :: exc_bases e).

Definition AttributeError (msg : string) : exn :=
  mk_exn "AttributeError" ["Exception"; "BaseException"] msg.
Definition TypeError (msg : string) : exn :=
  mk_exn "TypeError" ["Exception"; "BaseException"] msg.
Definition IndexError (msg : string) : exn :=
  mk_exn "IndexError" ["LookupError"; "Exception"; "BaseException"] msg.
Definition KeyError (msg : string) : exn :=
  mk_exn "KeyError" ["LookupError"; "Exception"; "BaseException"] msg.
Definition ValueError (msg : string) : exn :=
  mk_exn "ValueError" ["Exception"; "BaseException"] msg.
Definition KeyboardInterrupt : exn :=
  mk_exn "KeyboardInterrupt" ["BaseException"] "".

Inductive outcome (A : Type) : Type :=
| Ok (a : A)
| Raise (e : exn).
Arguments Ok {A} a.
Arguments Raise {A} e.

(** ** The Python operations the wrappers apply to values *)

Definition type_name (v : value) : string :=
  match v with
  | VNone => "NoneType"
  | VBool _ => "bool"
  | VInt _ => "int"
  | VFloat _ => "float"
  | VStr _ => "str"
  | VList _ => "list"
  | VDict _ => "dict"
  | VObject c _ => c
  end.

(** Truth value testing, as [if], [not] and [or] apply it. *)
Definition truthy (v : value) : bool :=
  match v with
  | VNone => false
  | VBool b => b
  | VInt z => negb (Z.eqb z 0)
  | VFloat q => negb (Qeq_bool q 0)
  | VStr s => negb (String.eqb s "")
  | VList l => match l with [] => false | _ :: _ => true end
  | VDict d => match d with [] => false | _ :: _ => true end
  | VObject _ _ => true
  end.

(** [a or b] *)
Definition py_or (a b : value) : value := if truthy a then a else b.

(** [v is not None] *)
Definition is_not_None (v : value) : bool :=
  match v with VNone => false | _ => true end.

Fixpoint dict_lookup (k : string) (d : list (string * value)) : option value :=
  match d with
  | [] => None
  | (k', v) :: rest => if String.eqb k k' then Some v else dict_lookup k rest
  end.

(** [d.get(k, default)] on a dictionary. *)
Definition dict_get (d : list (string * value)) (k : string) (default : value) : value :=
  match dict_lookup k d with
  | Some v => v
  | None => default
  end.

(** [o.get(k, default)] on an arbitrary value: only a dictionary has the
    method. *)
Definition py_get (o : value) (k : string) (default : value) : outcome value :=
  match o with
  | VDict d => Ok (dict_get d k default)
  | _ => Raise (AttributeError ("'" ++ type_name o ++ "' object has no attribute 'get'"))
  end.

(** [o.items()] *)
Definition py_items (o : value) : outcome (list (string * value)) :=
  match o with
  | VDict d => Ok d
  | _ => Raise (AttributeError ("'" ++ type_name o ++ "' object has no attribute 'items'"))
  end.

(** [o[0]] *)
Definition py_index0 (o : value) : outcome value :=
  match o with
  | VList (x :: _) => Ok x
  | VList [] => Raise (IndexError "list index out of range")
  | VStr (String c _) => Ok (VStr (String c EmptyString))
  | VStr EmptyString => Raise (IndexError "string index out of range")
  | VDict _ => Raise (KeyError "0")
  | _ => Raise (TypeError ("'" ++ type_name o ++ "' object is not subscriptable"))
  end.

(** [len(o)] *)
Definition py_len (o : value) : outcome Z :=
  match o with
  | VList l => Ok (Z.of_nat (List.length l))
  | VStr s => Ok (Z.of_nat (String.length s))
  | VDict d => Ok (Z.of_nat (List.length d))
  | _ => Raise (TypeError ("object of type '" ++ type_name o ++ "' has no len()"))
  end.

(** [name.split('_')[0]]: the text before the first underscore. *)
Fixpoint split_underscore_first (name : string) : string :=
  match name with
  | EmptyString => EmptyString
  | String c rest =>
      if Ascii.eqb c "_"%char then EmptyString
      else String c (split_underscore_first rest)
  end.

(** [name in names] for a list of strings. *)
Definition str_in (name : string) (names : list string) : bool :=
  existsb (String.eqb name) names.

(** [str(i)] for a list index. *)
Definition str_of_nat (i : nat) : string :=
  NilEmpty.string_of_uint (Nat.to_uint i).

(** ** Telemetry operations *)

Inductive counter : Type := TokenCounter | VectorSizeCounter.

Inductive SpanKind : Type := INTERNAL | SERVER | CLIENT | PRODUCER | CONSUMER.

(** One entry per operation the wrappers perform on a collaborator:
    [Counter.add], [Histogram.record], entering and leaving the span's
    [with] block, the calls of the attribute setters and
    [logger.warning]. *)
Inductive event : Type :=
| CounterAdd (c : counter) (amount : value) (attributes : attrs)
| HistogramRecord (amount : Q) (attributes : attrs)
| SpanStart (name : string) (kind : SpanKind) (attributes : attrs)
| SpanEnd
| SetRequestAttributes (kwargs : list (string * value))
| SetResponseAttributes (response_dict : value)
| SetSpanAttribute (name : string) (v : value)
| LogWarning (msg : string).

Definition SPAN_NAME : string := "openai.embeddings".
(** [LLMRequestTypeValues.EMBEDDING.value] *)
Definition LLM_REQUEST_TYPE : string := "embedding".
(** [SpanAttributes.LLM_REQUEST_TYPE] and [SpanAttributes.LLM_PROMPTS] *)
Definition SpanAttributes_LLM_REQUEST_TYPE : string := "llm.request.type".
Definition SpanAttributes_LLM_PROMPTS : string := "llm.prompts".

(** The adds a counter received and the values the histogram received,
    read off a trace. *)
Fixpoint adds_of (c : counter) (tr : list event) : list (value * attrs) :=
  match tr with
  | [] => []
  | CounterAdd c' amount a :: rest =>
      match c, c' with
      | TokenCounter, TokenCounter
      | VectorSizeCounter, VectorSizeCounter => (amount, a) :: adds_of c rest
      | _, _ => adds_of c rest
      end
  | _ :: rest => adds_of c rest
  end.

Fixpoint records_of (tr : list event) : list (Q * attrs) :=
  match tr with
  | [] => []
  | HistogramRecord q a :: rest => (q, a) :: records_of rest
  | _ :: rest => records_of rest
  end.

Definition is_span_end (ev : event) : bool :=
  match ev with SpanEnd => true | _ => false end.

Definition is_response_attributes (ev : event) : bool :=
  match ev with SetResponseAttributes _ => true | _ => false end.


(** ** Collaborators and the computation monad *)

Section Wrappers.

(** [Ext] is the state of everything outside this module (the wrapped
    client, the clock, the ambient context, the tracer's spans); [span]
    is the type of span handles. *)
Variables Ext span : Type.

(** The functions this module imports.  Each acts on the external state
    only.  The readers and the OpenTelemetry API calls return normally;
    the repository's helpers that inspect requests and responses may
    raise. *)
Record collaborators : Type := {
  (** [context_api.get_value(_SUPPRESS_INSTRUMENTATION_KEY)] *)
  get_value_suppress : Ext -> value;
  (** [time.time()] *)
  time_time : Ext -> Q * Ext;
  _get_openai_base_url : Ext -> string;
  is_openai_v1 : Ext -> bool;
  model_as_dict : value -> Ext -> outcome value * Ext;
  OPENAI_LLM_USAGE_TOKEN_TYPES : list string;
  should_send_prompts : Ext -> bool;
  (** entering and leaving [tracer.start_as_current_span(...)]; leaving
      is told the exception in flight, if any, and does not swallow it *)
  start_as_current_span : string -> SpanKind -> attrs -> Ext -> span * Ext;
  span_exit : span -> option exn -> Ext -> Ext;
  (** [span.is_recording()] *)
  is_recording : span -> Ext -> bool;
  _set_request_attributes : span -> list (string * value) -> Ext -> outcome unit * Ext;
  _set_response_attributes : span -> value -> Ext -> outcome unit * Ext;
  _set_span_attribute : span -> string -> value -> Ext -> outcome unit * Ext
}.

(** The wrapped callable, applied to [args] and [kwargs]. *)
Definition callable : Type :=
  list value -> list (string * value) -> Ext -> outcome value * Ext.

Record world : Type := mk_world {
  ext : Ext;
  trace : list event
}.

Definition M (A : Type) : Type := world -> outcome A * world.

Definition ret {A} (a : A) : M A := fun w => (Ok a, w).

Definition raise {A} (e : exn) : M A := fun w => (Raise e, w).

Definition bind {A B} (m : M A) (k : A -> M B) : M B := fun w =>
  match m w with
  | (Ok a, w') => k a w'
  | (Raise e, w') => (Raise e, w')
  end.

(** A pure Python operation that may raise. *)
Definition pure {A} (r : outcome A) : M A := fun w => (r, w).

(** A collaborator call that may raise. *)
Definition lift {A} (f : Ext -> outcome A * Ext) : M A := fun w =>
  let '(r, x) := f (ext w) in (r, mk_world x (trace w)).

(** A collaborator call that returns normally. *)
Definition tick {A} (f : Ext -> A * Ext) : M A := fun w =>
  let '(a, x) := f (ext w) in (Ok a, mk_world x (trace w)).

(** A collaborator call that only reads. *)
Definition read {A} (f : Ext -> A) : M A := fun w => (Ok (f (ext w)), w).

(** Performing a telemetry operation. *)
Definition emit (ev : event) : M unit := fun w =>
  (Ok tt, mk_world (ext w) (trace w ++ [ev])%list).

Fixpoint for_each {A} (l : list A) (body : A -> M unit) : M unit :=
  match l with
  | [] => ret tt
  | x :: rest => bind (body x) (fun _ => for_each rest body)
  end.

(** [enumerate(l)] *)
Definition enumerate {A} (l : list A) : list (nat * A) :=
  combine (seq 0 (List.length l)) l.

(** [try: body  except Exception as e: handler(e)] *)
Definition try_except {A} (body : M A) (handler : exn -> M A) : M A := fun w =>
  match body w with
  | (Ok a, w') => (Ok a, w')
  | (Raise e, w') =>
      if isinstance_Exception e then handler e w' else (Raise e, w')
  end.

(** A [try] block whose first statement binds a local name the handler
    looks up in [locals()]: the handler receives [None] when the
    exception was raised before the name was bound, [Some a] after. *)
Definition try_except_locals {A B}
    (first : M A) (rest : A -> M B) (handler : option A -> exn -> M B) : M B :=
  fun w =>
    match first w with
    | (Raise e, w1) =>
        if isinstance_Exception e then handler None e w1 else (Raise e, w1)
    | (Ok a, w1) =>
        match rest a w1 with
        | (Ok b, w2) => (Ok b, w2)
        | (Raise e, w2) =>
            if isinstance_Exception e then handler (Some a) e w2
            else (Raise e, w2)
        end
    end.

Variable env : collaborators.

(** [with tracer.start_as_current_span(name, kind, attributes) as span: body] *)
Definition with_span {A} (name : string) (kind : SpanKind) (attributes : attrs)
    (body : span -> M A) : M A := fun w =>
  let '(sp, x1) := start_as_current_span env name kind attributes (ext w) in
  let '(r, w2) :=
    body sp (mk_world x1 (trace w ++ [SpanStart name kind attributes])%list) in
  let in_flight := match r with Ok _ => None | Raise e => Some e end in
  (r, mk_world (span_exit env sp in_flight (ext w2)) (trace w2 ++ [SpanEnd])%list).

(** Modelled from the spec: [start_as_current_span_async] of
    [openai/utils.py] is not among the sources; the two variants are
    "distinguished only by whether invocation and span-scope acquisition
    suspend cooperatively", so the asynchronous scope is the synchronous
    one. *)
Definition start_as_current_span_async {A} (name : string) (kind : SpanKind)
    (attributes : attrs) (body : span -> M A) : M A :=
  with_span name kind attributes body.

Notation "x <- m ;; k" := (bind m (fun x => k))
  (at level 61, m at next level, right associativity).
Notation "m ;;; k" := (bind m (fun _ => k))
  (at level 61, right associativity).

(** *** The metrics wrapper *)

(** Lines 62-65 and 135-138. *)
Definition response_as_dict (response : value) : M value :=
  v1 <- read (is_openai_v1 env) ;;
  if v1 then lift (model_as_dict env response) else ret response.

(** Lines 75-78: the loop over [usage.items()]. *)
Definition add_token_usage (shared_attributes : attrs)
    (items : list (string * value)) : M unit :=
  for_each items (fun entry =>
    let '(name, val) := entry in
    if str_in name (OPENAI_LLM_USAGE_TOKEN_TYPES env) then
      let attributes_with_token_type :=
        (shared_attributes ++
         [("llm.usage.token_type", VStr (split_underscore_first name))])%list in
      emit (CounterAdd TokenCounter val attributes_with_token_type)
    else ret tt).

(** Line 82: [(response_dict.get("data") or [{}])[0].get("embedding", [])]
    and line 83: [len(vec_embedding)]. *)
Definition vec_size_of (response_dict : value) : outcome Z :=
  match py_get response_dict "data" VNone with
  | Raise e => Raise e
  | Ok data =>
      match py_index0 (py_or data (VList [VDict []])) with
      | Raise e => Raise e
      | Ok first =>
          match py_get first "embedding" (VList []) with
          | Raise e => Raise e
          | Ok vec_embedding => py_len vec_embedding
          end
      end
  end.

(** Lines 46-60: the handler.  [start_time] is [None] when the name is
    not in [locals()]. *)
Definition metrics_on_exception {A} (start_time : option Q) (e : exn) : M A :=
  end_time <- tick (time_time env) ;;
  let duration :=
    match start_time with
    | Some start => (end_time - start)%Q
    | None => 0%Q
    end in
  base_url <- read (_get_openai_base_url env) ;;
  let attributes :=
    [("error.type", VStr (exc_class e)); ("server.address", VStr base_url)] in
  emit (CounterAdd TokenCounter (VInt 1) attributes) ;;;
  emit (CounterAdd VectorSizeCounter (VInt 1) attributes) ;;;
  (if negb (Qle_bool duration 0) then emit (HistogramRecord duration attributes)
   else ret tt) ;;;
  raise e.

(** Lines 62-90. *)
Definition metrics_on_success (response : value) (start_time end_time : Q)
    : M value :=
  response_dict <- response_as_dict response ;;
  model <- pure (py_get response_dict "model" VNone) ;;
  base_url <- read (_get_openai_base_url env) ;;
  let shared_attributes :=
    [("llm.response.model", py_or model VNone);
     ("server.address", VStr base_url)] in
  usage <- pure (py_get response_dict "usage" VNone) ;;
  (if is_not_None usage then
     items <- pure (py_items usage) ;;
     add_token_usage shared_attributes items
   else ret tt) ;;;
  vec_size <- pure (vec_size_of response_dict) ;;
  emit (CounterAdd VectorSizeCounter (VInt vec_size) shared_attributes) ;;;
  let duration := (end_time - start_time)%Q in
  emit (HistogramRecord duration shared_attributes) ;;;
  ret response.

(** [embeddings_metrics_wrapper], with the three instruments bound by
    the decorator. *)
Definition embeddings_metrics_wrapper (wrapped : callable) (instance : value)
    (args : list value) (kwargs : list (string * value)) : M value :=
  suppress <- read (get_value_suppress env) ;;
  if truthy suppress then lift (wrapped args kwargs)
  else
    timed <- try_except_locals
      (tick (time_time env))
      (fun start_time =>
         response <- lift (wrapped args kwargs) ;;
         end_time <- tick (time_time env) ;;
         ret (start_time, response, end_time))
      metrics_on_exception ;;
    let '(start_time, response, end_time) := timed in
    metrics_on_success response start_time end_time.

(** *** The tracing wrappers *)

Definition _set_prompts (sp : span) (prompt : value) : M unit :=
  recording <- read (is_recording env sp) ;;
  if negb recording || negb (truthy prompt) then ret tt
  else
    try_except
      (match prompt with
       | VList items =>
           for_each (enumerate items) (fun ip =>
             let '(i, p) := ip in
             let name :=
               SpanAttributes_LLM_PROMPTS ++ "." ++ str_of_nat i ++ ".content" in
             emit (SetSpanAttribute name p) ;;;
             lift (_set_span_attribute env sp name p))
       | _ =>
           let name := SpanAttributes_LLM_PROMPTS ++ ".0.content" in
           emit (SetSpanAttribute name prompt) ;;;
           lift (_set_span_attribute env sp name prompt)
       end)
      (fun ex =>
         emit (LogWarning
           ("Failed to set prompts for openai span, error: " ++ exc_message ex))).

Definition _handle_request (sp : span) (kwargs : list (string * value)) : M unit :=
  emit (SetRequestAttributes kwargs) ;;;
  lift (_set_request_attributes env sp kwargs) ;;;
  send <- read (should_send_prompts env) ;;
  if send then _set_prompts sp (dict_get kwargs "input" VNone) else ret tt.

Definition _handle_response (response : value) (sp : span) : M unit :=
  response_dict <- response_as_dict response ;;
  emit (SetResponseAttributes response_dict) ;;;
  lift (_set_response_attributes env sp response_dict).

Definition embeddings_wrapper (wrapped : callable) (instance : value)
    (args : list value) (kwargs : list (string * value)) : M value :=
  suppress <- read (get_value_suppress env) ;;
  if truthy suppress then lift (wrapped args kwargs)
  else
    with_span SPAN_NAME CLIENT
      [(SpanAttributes_LLM_REQUEST_TYPE, VStr LLM_REQUEST_TYPE)]
      (fun sp =>
         _handle_request sp kwargs ;;;
         response <- lift (wrapped args kwargs) ;;
         _handle_response response sp ;;;
         ret response).

(** What awaiting a coroutine function's call yields: a plain value, or
    a coroutine object that was returned without being awaited. *)
Inductive awaited : Type :=
| Plain (v : value)
| Coroutine (c : Ext -> outcome value * Ext).

(** [await c]: running the coroutine. *)
Definition await (c : Ext -> outcome value * Ext) : M value := lift c.

(** [aembeddings_wrapper]: the body that runs when the coroutine the
    [async def] returns is awaited.  Calling [wrapped] builds the
    underlying coroutine without running it. *)
Definition aembeddings_wrapper (wrapped : callable) (instance : value)
    (args : list value) (kwargs : list (string * value)) : M awaited :=
  suppress <- read (get_value_suppress env) ;;
  if truthy suppress then ret (Coroutine (wrapped args kwargs))
  else
    start_as_current_span_async SPAN_NAME CLIENT
      [(SpanAttributes_LLM_REQUEST_TYPE, VStr LLM_REQUEST_TYPE)]
      (fun sp =>
         _handle_request sp kwargs ;;;
         response <- await (wrapped args kwargs) ;;
         _handle_response response sp ;;;
         ret (Plain response)).

(** Calling the underlying function directly, and awaiting the call
    for a coroutine function. *)
Definition direct_call (wrapped : callable)
    (args : list value) (kwargs : list (string * value)) : M value :=
  lift (wrapped args kwargs).

Definition direct_await (wrapped : callable)
    (args : list value) (kwargs : list (string * value)) : M awaited :=
  response <- await (wrapped args kwargs) ;;
  ret (Plain response).

End Wrappers.

Arguments get_value_suppress {Ext span} c.
Arguments time_time {Ext span} c.
Arguments _get_openai_base_url {Ext span} c.
Arguments is_openai_v1 {Ext span} c.
Arguments model_as_dict {Ext span} c.
Arguments OPENAI_LLM_USAGE_TOKEN_TYPES {Ext span} c.
Arguments should_send_prompts {Ext span} c.
Arguments start_as_current_span {Ext span} c.
Arguments span_exit {Ext span} c.
Arguments is_recording {Ext span} c.
Arguments _set_request_attributes {Ext span} c.
Arguments _set_response_attributes {Ext span} c.
Arguments _set_span_attribute {Ext span} c.
Arguments mk_world {Ext} ext trace.
Arguments ext {Ext} w.
Arguments trace {Ext} w.
Arguments ret {Ext A} a w.
Arguments raise {Ext A} e w.
Arguments bind {Ext A B} m k w.
Arguments pure {Ext A} r w.
Arguments lift {Ext A} f w.
Arguments tick {Ext A} f w.
Arguments read {Ext A} f w.
Arguments emit {Ext} ev w.
Arguments for_each {Ext A} l body w.
Arguments enumerate {A} l.
Arguments try_except {Ext A} body handler w.
Arguments try_except_locals {Ext A B} first rest handler w.
Arguments with_span {Ext span} env {A} name kind attributes body w.
Arguments start_as_current_span_async {Ext span} env {A} name kind attributes body w.
Arguments response_as_dict {Ext span} env response w.
Arguments add_token_usage {Ext span} env shared_attributes items w.
Arguments metrics_on_exception {Ext span} env {A} start_time e w.
Arguments metrics_on_success {Ext span} env response start_time end_time w.
Arguments embeddings_metrics_wrapper {Ext span} env wrapped instance args kwargs w.
Arguments _set_prompts {Ext span} env sp prompt w.
Arguments _handle_request {Ext span} env sp kwargs w.
Arguments _handle_response {Ext span} env response sp w.
Arguments embeddings_wrapper {Ext span} env wrapped instance args kwargs w.
Arguments Plain {Ext} v.
Arguments Coroutine {Ext} c.
Arguments await {Ext} c w.
Arguments aembeddings_wrapper {Ext span} env wrapped instance args kwargs w.
Arguments direct_call {Ext} wrapped args kwargs w.
Arguments direct_await {Ext} wrapped args kwargs w.

(** ** Vocabulary of the properties *)

(** The span's life cycle, driven by the operations of a trace:
    not-started, recording, ended.  Attributes can only be set while the
    span is recording; metric and logging operations do not concern it. *)
Inductive span_state : Type := NotStarted | Recording | Ended.

Definition span_step (s : span_state) (ev : event) : option span_state :=
  match ev with
  | SpanStart _ _ _ =>
      match s with NotStarted => Some Recording | _ => None end
  | SpanEnd =>
      match s with Recording => Some Ended | _ => None end
  | SetRequestAttributes _ | SetResponseAttributes _ | SetSpanAttribute _ _ =>
      match s with Recording => Some Recording | _ => None end
  | CounterAdd _ _ _ | HistogramRecord _ _ | LogWarning _ => Some s
  end.

Fixpoint span_run (s : span_state) (tr : list event) : option span_state :=
  match tr with
  | [] => Some s
  | ev :: rest =>
      match span_step s ev with
      | Some s' => span_run s' rest
      | None => None
      end
  end.

(** Operations that leave a recording span recording. *)
Definition inside_span (ev : event) : bool :=
  match ev with
  | SpanStart _ _ _ | SpanEnd => false
  | _ => true
  end.

(** The operations of the request phase: everything a recording span
    sees before the underlying call. *)
Definition request_phase (ev : event) : bool :=
  match ev with
  | SetRequestAttributes _ | SetSpanAttribute _ _ | LogWarning _ => true
  | _ => false
  end.

(** [m] only appends to the trace, and only operations satisfying [P]. *)
Definition emits_only {Ext A} (P : event -> bool) (m : world Ext -> outcome A * world Ext) : Prop :=
  forall w r w', m w = (r, w') ->
    exists d, trace w' = (trace w ++ d)%list /\ forallb P d = true.

(** Whether a key contains the separator of [split]. *)
Fixpoint has_underscore (name : string) : bool :=
  match name with
  | EmptyString => false
  | String c rest => Ascii.eqb c "_"%char || has_underscore rest
  end.

(** The tags of the exception path and of the success path. *)
Definition error_attributes (e : exn) (base_url : string) : attrs :=
  [("error.type", VStr (exc_class e)); ("server.address", VStr base_url)].

Definition shared_attributes_of (d : list (string * value)) (base_url : string) : attrs :=
  [("llm.response.model", py_or (dict_get d "model" VNone) VNone);
   ("server.address", VStr base_url)].

(** The token-counter adds a usage mapping calls for: one per entry whose
    key is in the allow-list, in the mapping's order. *)
Definition token_adds (allowed : list string) (shared : attrs)
    (usage : list (string * value)) : list (value * attrs) :=
  map (fun entry : string * value =>
         (snd entry,
          (shared ++ [("llm.usage.token_type",
                       VStr (split_underscore_first (fst entry)))])%list))
      (filter (fun entry : string * value => str_in (fst entry) allowed) usage).

Definition token_add_event (add : value * attrs) : event :=
  CounterAdd TokenCounter (fst add) (snd add).

(** The token-counter operations of the success path, by the value found
    under ["usage"]. *)
Definition usage_events (allowed : list string) (shared : attrs) (usage : value)
    : list event :=
  match usage with
  | VDict u => map token_add_event (token_adds allowed shared u)
  | _ => []
  end.

(** ["usage"] is absent (or [None]) or a mapping. *)
Definition usage_well_formed (usage : value) : Prop :=
  match usage with
  | VNone | VDict _ => True
  | _ => False
  end.

(** The attribute a prompt element is recorded under. *)
Definition prompt_name (i : nat) : string :=
  SpanAttributes_LLM_PROMPTS ++ "." ++ str_of_nat i ++ ".content".

Definition prompt_event (ip : nat * value) : event :=
  SetSpanAttribute (prompt_name (fst ip)) (snd ip).

Definition prompt_warning (ex : exn) : event :=
  LogWarning ("Failed to set prompts for openai span, error: " ++ exc_message ex).

(** The attribute setter accepts, respectively rejects with [e], the
    prompt element [ip], whatever the external state. *)
Definition sets_normally {Ext span} (env : collaborators Ext span) (sp : span)
    (ip : nat * value) : Prop :=
  forall x, exists x',
    _set_span_attribute env sp (prompt_name (fst ip)) (snd ip) x = (Ok tt, x').

Definition set_raises {Ext span} (env : collaborators Ext span) (sp : span)
    (ip : nat * value) (e : exn) : Prop :=
  forall x, exists x',
    _set_span_attribute env sp (prompt_name (fst ip)) (snd ip) x = (Raise e, x').

(** The operations of the exception path, for a computed [duration]. *)
Definition error_telemetry (e : exn) (base_url : string) (duration : Q) : list event :=
  ([CounterAdd TokenCounter (VInt 1) (error_attributes e base_url);
    CounterAdd VectorSizeCounter (VInt 1) (error_attributes e base_url)] ++
   (if negb (Qle_bool duration 0)
    then [HistogramRecord duration (error_attributes e base_url)]
    else []))%list.

(** The external state in which the metrics wrapper invokes the
    underlying call: the state it was entered in when suppressed, the
    state after reading the start time otherwise. *)
Definition metrics_call_state {Ext span} (env : collaborators Ext span) (x : Ext) : Ext :=
  if truthy (get_value_suppress env x) then x else snd (time_time env x).

(** ** A concrete environment *)

Module Demo.

Record state : Type := mk_state {
  clock : list Q;            (* the readings [time.time()] will return *)
  suppressed : bool;
  recording : bool;
  send_prompts : bool;
  v1 : bool;
  span_attributes : attrs;   (* what the span has stored *)
  span_ended : nat;
  calls : nat                (* how often the underlying function ran *)
}.

Definition read_clock (s : state) : Q * state :=
  match clock s with
  | [] => (0%Q, s)
  | t :: rest =>
      (t, mk_state rest (suppressed s) (recording s) (send_prompts s) (v1 s)
            (span_attributes s) (span_ended s) (calls s))
  end.

Definition store (s : state) (new : attrs) : state :=
  mk_state (clock s) (suppressed s) (recording s) (send_prompts s) (v1 s)
    (span_attributes s ++ new)%list (span_ended s) (calls s).

Definition end_span (s : state) : state :=
  mk_state (clock s) (suppressed s) (recording s) (send_prompts s) (v1 s)
    (span_attributes s) (S (span_ended s)) (calls s).

Definition called (s : state) : state :=
  mk_state (clock s) (suppressed s) (recording s) (send_prompts s) (v1 s)
    (span_attributes s) (span_ended s) (S (calls s)).

(** A span that stores strings and numbers and rejects other values. *)
Definition strict_set_attribute (name : string) (v : value) (s : state)
    : outcome unit * state :=
  match v with
  | VStr _ | VInt _ | VFloat _ | VBool _ => (Ok tt, store s [(name, v)])
  | _ => (Raise (TypeError ("invalid attribute value of type " ++ type_name v)), s)
  end.

Definition env : collaborators state unit := {|
  get_value_suppress := fun s => if suppressed s then VBool true else VNone;
  time_time := read_clock;
  _get_openai_base_url := fun _ => "https://api.openai.com/v1/";
  is_openai_v1 := v1;
  model_as_dict := fun r s =>
    match r with
    | VDict _ => (Ok r, s)
    | _ => (Raise (AttributeError
              ("'" ++ type_name r ++ "' object has no attribute 'model_dump'")), s)
    end;
  OPENAI_LLM_USAGE_TOKEN_TYPES := ["prompt_tokens"; "completion_tokens"];
  should_send_prompts := send_prompts;
  start_as_current_span := fun _ _ attributes s => (tt, store s attributes);
  span_exit := fun _ _ s => end_span s;
  is_recording := fun _ s => recording s;
  _set_request_attributes := fun _ kwargs s =>
    (Ok tt, store s [("llm.request.model", dict_get kwargs "model" VNone)]);
  _set_response_attributes := fun _ response_dict s =>
    match response_dict with
    | VDict d => (Ok tt, store s [("llm.response.model", dict_get d "model" VNone)])
    | _ => (Raise (AttributeError
              ("'" ++ type_name response_dict ++ "' object has no attribute 'get'")), s)
    end;
  _set_span_attribute := fun _ => strict_set_attribute
|}.

Definition returns (response : value) : callable state :=
  fun _ _ s => (Ok response, called s).

Definition raises (e : exn) : callable state :=
  fun _ _ s => (Raise e, called s).

Definition initial (times : list Q) (suppress : bool) : world state :=
  mk_world (mk_state times suppress true true false [] 0 0) [].

Definition kwargs : list (string * value) :=
  [("model", VStr "text-embedding-ada-002"); ("input", VStr "hello")].

Definition response : value :=
  VDict [("model", VStr "text-embedding-ada-002");
         ("usage", VDict [("prompt_tokens", VInt 5); ("total_tokens", VInt 5)]);
         ("data", VList [VDict [("embedding", VList [VInt 1; VInt 2])]])].

(** A response whose first result carries no vector. *)
Definition response_null_embedding : value :=
  VDict [("model", VStr "text-embedding-ada-002");
         ("data", VList [VDict [("embedding", VNone)]])].

(** A response whose first result carries its vector as text: the
    base64 form, 12 characters, of the two 32-bit floats 0.0 and 1.0. *)
Definition response_base64 : value :=
  VDict [("model", VStr "text-embedding-ada-002");
         ("data", VList [VDict [("embedding", VStr "AAAAAAAAgD8=")]])].

(** A world with every switch of the state chosen. *)
Definition world_of (times : list Q) (suppress is_rec send is_v1 : bool)
    : world state :=
  mk_world (mk_state times suppress is_rec send is_v1 [] 0 0) [].

(** The environment with other attribute setters. *)
Definition custom
    (set_request : list (string * value) -> state -> outcome unit * state)
    (set_attribute : string -> value -> state -> outcome unit * state)
    : collaborators state unit := {|
  get_value_suppress := get_value_suppress env;
  time_time := time_time env;
  _get_openai_base_url := _get_openai_base_url env;
  is_openai_v1 := is_openai_v1 env;
  model_as_dict := model_as_dict env;
  OPENAI_LLM_USAGE_TOKEN_TYPES := OPENAI_LLM_USAGE_TOKEN_TYPES env;
  should_send_prompts := should_send_prompts env;
  start_as_current_span := start_as_current_span env;
  span_exit := span_exit env;
  is_recording := is_recording env;
  _set_request_attributes := fun _ => set_request;
  _set_response_attributes := _set_response_attributes env;
  _set_span_attribute := fun _ => set_attribute
|}.

(** The environment with prompt recording switched off. *)
Definition without_prompts : collaborators state unit := {|
  get_value_suppress := get_value_suppress env;
  time_time := time_time env;
  _get_openai_base_url := _get_openai_base_url env;
  is_openai_v1 := is_openai_v1 env;
  model_as_dict := model_as_dict env;
  OPENAI_LLM_USAGE_TOKEN_TYPES := OPENAI_LLM_USAGE_TOKEN_TYPES env;
  should_send_prompts := fun _ => false;
  start_as_current_span := start_as_current_span env;
  span_exit := span_exit env;
  is_recording := is_recording env;
  _set_request_attributes := _set_request_attributes env;
  _set_response_attributes := _set_response_attributes env;
  _set_span_attribute := _set_span_attribute env
|}.

(** A request-attribute setter that rejects a request without a model. *)
Definition model_required (kwargs : list (string * value)) (s : state)
    : outcome unit * state :=
  match dict_lookup "model" kwargs with
  | Some v => (Ok tt, store s [("llm.request.model", v)])
  | None => (Raise (KeyError "model"), s)
  end.

(** An attribute setter interrupted on any value that is not a string. *)
Definition interrupted_set_attribute (name : string) (v : value) (s : state)
    : outcome unit * state :=
  match v with
  | VStr _ => (Ok tt, store s [(name, v)])
  | _ => (Raise KeyboardInterrupt, s)
  end.

End Demo.

(** ** Vocabulary of the further properties *)

(** Operations on the metric instruments. *)
Definition is_metric (ev : event) : bool :=
  match ev with
  | CounterAdd _ _ _ | HistogramRecord _ _ => true
  | _ => false
  end.

(** Operations of the prompt-setting step. *)
Definition is_prompt_operation (ev : event) : bool :=
  match ev with
  | SetSpanAttribute _ _ | LogWarning _ => true
  | _ => false
  end.

Definition has_key (k : string) (a : attrs) : bool :=
  existsb (fun kv : string * value => String.eqb k (fst kv)) a.

(** A measurement tagged the way the exception path tags: with
    [error.type] and without [llm.response.model]; and the way the
    success path tags: the other way round. *)
Definition error_shaped (ev : event) : bool :=
  match ev with
  | CounterAdd _ _ a | HistogramRecord _ a =>
      has_key "error.type" a && negb (has_key "llm.response.model" a)
  | _ => false
  end.

Definition success_shaped (ev : event) : bool :=
  match ev with
  | CounterAdd _ _ a | HistogramRecord _ a =>
      has_key "llm.response.model" a && negb (has_key "error.type" a)
  | _ => false
  end.

(** The exception an outcome leaves in flight. *)
Definition in_flight {A} (r : outcome A) : option exn :=
  match r with
  | Ok _ => None
  | Raise e => Some e
  end.

(** What awaiting yields when the synchronous run yields [r]. *)
Definition plain_outcome {Ext} (r : outcome value * world Ext)
    : outcome (awaited Ext) * world Ext :=
  (match fst r with
   | Ok v => Ok (Plain v)
   | Raise e => Raise e
   end,
   snd r).

(** The tag a token add carries on top of the shared attributes. *)
Definition token_tagged (shared : attrs) (add : value * attrs) : Prop :=
  exists name, snd add = (shared ++ [("llm.usage.token_type", VStr name)])%list.

(** ** Reading traces *)

Lemma adds_of_app (c : counter) (tr1 tr2 : list event) :
  adds_of c (tr1 ++ tr2) = (adds_of c tr1 ++ adds_of c tr2)%list.
Proof.
  induction tr1 as [| ev tr1 IH]; [reflexivity |].
  destruct ev; simpl; try exact IH.
  destruct c, c0; simpl; rewrite IH; reflexivity.
Qed.

Lemma records_of_app (tr1 tr2 : list event) :
  records_of (tr1 ++ tr2) = (records_of tr1 ++ records_of tr2)%list.
Proof.
  induction tr1 as [| ev tr1 IH]; [reflexivity |].
  destruct ev; simpl; rewrite ?IH; reflexivity.
Qed.

Lemma positive_iff_not_le (q : Q) : negb (Qle_bool q 0) = true <-> (0 < q)%Q.
Proof.
  rewrite negb_true_iff. split.
  - intros H. apply Qnot_le_lt. intros Hle.
    apply Qle_bool_iff in Hle. congruence.
  - intros H. destruct (Qle_bool q 0) eqn:E; [| reflexivity].
    apply Qle_bool_iff in E. exfalso. exact (Qlt_not_le _ _ H E).
Qed.

Lemma adds_of_token_events (adds : list (value * attrs)) :
  adds_of TokenCounter (map token_add_event adds) = adds /\
  adds_of VectorSizeCounter (map token_add_event adds) = [] /\
  records_of (map token_add_event adds) = [].
Proof.
  induction adds as [| [amount a] adds (IH1 & IH2 & IH3)];
    [repeat split |].
  cbn. rewrite IH1, IH2, IH3. repeat split.
Qed.

Lemma usage_events_read (allowed : list string) (shared : attrs) (usage : value) :
  adds_of TokenCounter (usage_events allowed shared usage) =
    match usage with
    | VDict u => token_adds allowed shared u
    | _ => []
    end /\
  adds_of VectorSizeCounter (usage_events allowed shared usage) = [] /\
  records_of (usage_events allowed shared usage) = [].
Proof.
  destruct usage; cbn [usage_events]; try (repeat split; reflexivity).
  apply adds_of_token_events.
Qed.

(** ** The span's life cycle on a trace *)

Lemma span_run_app (s : span_state) (d1 d2 : list event) :
  span_run s (d1 ++ d2) =
  match span_run s d1 with
  | Some s' => span_run s' d2
  | None => None
  end.
Proof.
  revert s. induction d1 as [| ev d1 IH]; intros s; [reflexivity |].
  cbn. destruct (span_step s ev); [apply IH | reflexivity].
Qed.

Lemma inside_span_run (d : list event) :
  forallb inside_span d = true ->
  span_run Recording d = Some Recording /\ filter is_span_end d = [].
Proof.
  induction d as [| ev d IH]; [split; reflexivity |].
  cbn [forallb]. intros H. apply andb_true_iff in H as [Hev Hd].
  destruct (IH Hd) as [IH1 IH2].
  destruct ev; cbn in Hev |- *; try discriminate; split; assumption.
Qed.

Lemma request_phase_inside (d : list event) :
  forallb request_phase d = true ->
  forallb inside_span d = true /\ filter is_response_attributes d = [].
Proof.
  induction d as [| ev d IH]; [split; reflexivity |].
  cbn [forallb]. intros H. apply andb_true_iff in H as [Hev Hd].
  destruct (IH Hd) as [IH1 IH2].
  destruct ev; cbn in Hev |- *; try discriminate; split; assumption.
Qed.

Lemma forallb_weaken {A} (P Q : A -> bool) (l : list A) :
  (forall a, P a = true -> Q a = true) ->
  forallb P l = true -> forallb Q l = true.
Proof.
  intros HPQ H. rewrite forallb_forall in *. auto.
Qed.

(** ** Which operations a computation performs *)

Section Emits.

Context {Ext : Type} (P : event -> bool).

Lemma emits_nothing {A} (m : world Ext -> outcome A * world Ext) :
  (forall w, trace (snd (m w)) = trace w) -> emits_only P m.
Proof.
  intros H w r w' E. exists []. rewrite app_nil_r. split; [| reflexivity].
  specialize (H w). rewrite E in H. exact H.
Qed.

Lemma emits_only_ret {A} (a : A) : emits_only P (ret (Ext:=Ext) a).
Proof. apply emits_nothing. reflexivity. Qed.

Lemma emits_only_pure {A} (r : outcome A) : emits_only P (pure (Ext:=Ext) r).
Proof. apply emits_nothing. reflexivity. Qed.

Lemma emits_only_read {A} (f : Ext -> A) : emits_only P (read f).
Proof. apply emits_nothing. reflexivity. Qed.

Lemma emits_only_lift {A} (f : Ext -> outcome A * Ext) : emits_only P (lift f).
Proof.
  apply emits_nothing. intros w. unfold lift. destruct (f (ext w)); reflexivity.
Qed.

Lemma emits_only_emit (ev : event) : P ev = true -> emits_only P (emit (Ext:=Ext) ev).
Proof.
  intros H w r w' E. unfold emit in E. inversion E; subst.
  exists [ev]. cbn. rewrite H. split; reflexivity.
Qed.

Lemma emits_only_bind {A B} (m : world Ext -> outcome A * world Ext)
    (k : A -> world Ext -> outcome B * world Ext) :
  emits_only P m -> (forall a, emits_only P (k a)) -> emits_only P (bind m k).
Proof.
  intros Hm Hk w r w' E. unfold bind in E.
  destruct (m w) as [[a | e] w1] eqn:Em.
  - destruct (Hm _ _ _ Em) as (d1 & T1 & F1).
    destruct (Hk a _ _ _ E) as (d2 & T2 & F2).
    exists (d1 ++ d2)%list. rewrite T2, T1, app_assoc, forallb_app, F1, F2.
    split; reflexivity.
  - inversion E; subst. exact (Hm _ _ _ Em).
Qed.

Lemma emits_only_for_each {A} (l : list A) (body : A -> world Ext -> outcome unit * world Ext) :
  (forall a, emits_only P (body a)) -> emits_only P (for_each l body).
Proof.
  intros Hbody. induction l as [| a l IH]; cbn [for_each].
  - apply emits_only_ret.
  - apply emits_only_bind; [apply Hbody | intros _; exact IH].
Qed.

Lemma emits_only_try_except {A} (body : world Ext -> outcome A * world Ext)
    (handler : exn -> world Ext -> outcome A * world Ext) :
  emits_only P body -> (forall e, emits_only P (handler e)) ->
  emits_only P (try_except body handler).
Proof.
  intros Hb Hh w r w' E. unfold try_except in E.
  destruct (body w) as [[a | e] w1] eqn:Eb.
  - inversion E; subst. exact (Hb _ _ _ Eb).
  - destruct (isinstance_Exception e).
    + destruct (Hb _ _ _ Eb) as (d1 & T1 & F1).
      destruct (Hh e _ _ _ E) as (d2 & T2 & F2).
      exists (d1 ++ d2)%list. rewrite T2, T1, app_assoc, forallb_app, F1, F2.
      split; reflexivity.
    + inversion E; subst. exact (Hb _ _ _ Eb).
Qed.

End Emits.

Lemma emits_only_weaken {Ext A} (P Q : event -> bool)
    (m : world Ext -> outcome A * world Ext) :
  (forall ev, P ev = true -> Q ev = true) -> emits_only P m -> emits_only Q m.
Proof.
  intros HPQ Hm w r w' E. destruct (Hm _ _ _ E) as (d & T & F).
  exists d. split; [exact T | exact (forallb_weaken P Q d HPQ F)].
Qed.

(** ** The token type of a usage key *)

Lemma split_underscore_first_segment (a b : string) :
  has_underscore a = false ->
  split_underscore_first (a ++ String "_"%char b) = a.
Proof.
  induction a as [| c a IH]; cbn; [reflexivity |].
  intros H. apply orb_false_iff in H as [Hc Ha].
  rewrite Hc, (IH Ha). reflexivity.
Qed.

Lemma split_underscore_first_whole (name : string) :
  has_underscore name = false -> split_underscore_first name = name.
Proof.
  induction name as [| c name IH]; cbn; [reflexivity |].
  intros H. apply orb_false_iff in H as [Hc Hn].
  rewrite Hc, (IH Hn). reflexivity.
Qed.

(** ** Enumeration *)

Lemma nth_error_enumerate_from {A} (l : list A) (n i : nat) :
  nth_error (combine (seq n (List.length l)) l) i =
  option_map (pair (n + i)%nat) (nth_error l i).
Proof.
  revert n i. induction l as [| a l IH]; intros n i.
  - destruct i; reflexivity.
  - destruct i as [| i]; cbn.
    + rewrite Nat.add_0_r. reflexivity.
    + rewrite IH. rewrite Nat.add_succ_r. reflexivity.
Qed.

Lemma nth_error_enumerate {A} (l : list A) (i : nat) :
  nth_error (enumerate l) i = option_map (pair i) (nth_error l i).
Proof. apply (nth_error_enumerate_from l 0 i). Qed.

Section Properties.

Context {Ext span : Type} (env : collaborators Ext span).

(** ** The four paths of the metrics wrapper *)

Lemma metrics_wrapper_suppressed wrapped instance args kwargs (w : world Ext) :
  truthy (get_value_suppress env (ext w)) = true ->
  embeddings_metrics_wrapper env wrapped instance args kwargs w =
  direct_call wrapped args kwargs w.
Proof.
  intros H. unfold embeddings_metrics_wrapper, direct_call, bind, read.
  rewrite H. reflexivity.
Qed.

Lemma direct_call_trace (wrapped : callable Ext) args kwargs (w : world Ext) :
  trace (snd (direct_call wrapped args kwargs w)) = trace w.
Proof.
  unfold direct_call, lift. destruct (wrapped args kwargs (ext w)); reflexivity.
Qed.

Lemma metrics_on_exception_run (A : Type) start_time e (w : world Ext) :
  let x := snd (time_time env (ext w)) in
  let duration :=
    match start_time with
    | Some start => (fst (time_time env (ext w)) - start)%Q
    | None => 0%Q
    end in
  metrics_on_exception env (A:=A) start_time e w =
  (Raise e,
   mk_world x (trace w ++ error_telemetry e (_get_openai_base_url env x) duration)).
Proof.
  unfold metrics_on_exception, error_telemetry, bind, tick, read, emit, raise, ret.
  destruct (time_time env (ext w)) as [t1 x] eqn:Et. cbn [fst snd ext trace].
  destruct start_time as [start |]; cbn [ext trace].
  - destruct (negb (Qle_bool (t1 - start) 0)); cbn [ext trace];
      rewrite <- ?app_assoc; reflexivity.
  - cbn. rewrite <- ?app_assoc. reflexivity.
Qed.

Lemma metrics_wrapper_caught wrapped instance args kwargs (w : world Ext) e x2 :
  truthy (get_value_suppress env (ext w)) = false ->
  wrapped args kwargs (snd (time_time env (ext w))) = (Raise e, x2) ->
  isinstance_Exception e = true ->
  embeddings_metrics_wrapper env wrapped instance args kwargs w =
  metrics_on_exception env (Some (fst (time_time env (ext w)))) e
    (mk_world x2 (trace w)).
Proof.
  intros Hs Hw He.
  unfold embeddings_metrics_wrapper, bind at 1, read. rewrite Hs. cbn [truthy].
  unfold bind at 1, try_except_locals, tick at 1.
  destruct (time_time env (ext w)) as [t0 x1]. cbn [fst snd] in *.
  unfold bind at 1, lift. cbn [ext trace]. rewrite Hw, He.
  rewrite !metrics_on_exception_run. reflexivity.
Qed.

Lemma metrics_wrapper_uncaught wrapped instance args kwargs (w : world Ext) e x2 :
  truthy (get_value_suppress env (ext w)) = false ->
  wrapped args kwargs (snd (time_time env (ext w))) = (Raise e, x2) ->
  isinstance_Exception e = false ->
  embeddings_metrics_wrapper env wrapped instance args kwargs w =
  (Raise e, mk_world x2 (trace w)).
Proof.
  intros Hs Hw He.
  unfold embeddings_metrics_wrapper, bind at 1, read. rewrite Hs. cbn [truthy].
  unfold bind at 1, try_except_locals, tick at 1.
  destruct (time_time env (ext w)) as [t0 x1]. cbn [fst snd] in *.
  unfold bind at 1, lift. cbn [ext trace]. rewrite Hw, He. reflexivity.
Qed.

Lemma metrics_wrapper_returned wrapped instance args kwargs (w : world Ext)
    response x2 :
  truthy (get_value_suppress env (ext w)) = false ->
  wrapped args kwargs (snd (time_time env (ext w))) = (Ok response, x2) ->
  embeddings_metrics_wrapper env wrapped instance args kwargs w =
  metrics_on_success env response
    (fst (time_time env (ext w))) (fst (time_time env x2))
    (mk_world (snd (time_time env x2)) (trace w)).
Proof.
  intros Hs Hw.
  unfold embeddings_metrics_wrapper, bind at 1, read. rewrite Hs. cbn [truthy].
  unfold bind at 1, try_except_locals, tick at 1.
  destruct (time_time env (ext w)) as [t0 x1]. cbn [fst snd] in *.
  unfold bind at 1, lift. cbn [ext trace]. rewrite Hw.
  unfold bind at 1, tick, ret. cbn [ext trace].
  destruct (time_time env x2) as [t1 x3]. reflexivity.
Qed.

(** ** The success path *)

Lemma response_as_dict_trace response (w : world Ext) :
  trace (snd (response_as_dict env response w)) = trace w.
Proof.
  unfold response_as_dict, bind, read, lift, ret.
  destruct (is_openai_v1 env (ext w)); [| reflexivity].
  destruct (model_as_dict env response (ext w)); reflexivity.
Qed.

Lemma add_token_usage_run shared items (w : world Ext) :
  add_token_usage env shared items w =
  (Ok tt,
   mk_world (ext w)
     (trace w ++
      map token_add_event
        (token_adds (OPENAI_LLM_USAGE_TOKEN_TYPES env) shared items))).
Proof.
  unfold add_token_usage, token_adds.
  revert w. induction items as [| [name val] items IH]; intros w.
  - cbn. rewrite app_nil_r. destruct w; reflexivity.
  - cbn [for_each filter fst snd]. unfold bind at 1.
    destruct (str_in name (OPENAI_LLM_USAGE_TOKEN_TYPES env)).
    + unfold emit at 1. rewrite IH. cbn [ext trace map fst snd].
      rewrite <- app_assoc. reflexivity.
    + unfold ret at 1. apply IH.
Qed.

Lemma metrics_on_success_run response t0 t1 (w3 w4 : world Ext) d :
  response_as_dict env response w3 = (Ok (VDict d), w4) ->
  usage_well_formed (dict_get d "usage" VNone) ->
  let shared := shared_attributes_of d (_get_openai_base_url env (ext w4)) in
  let tokens :=
    usage_events (OPENAI_LLM_USAGE_TOKEN_TYPES env) shared
      (dict_get d "usage" VNone) in
  metrics_on_success env response t0 t1 w3 =
  match vec_size_of (VDict d) with
  | Ok n =>
      (Ok response,
       mk_world (ext w4)
         (trace w3 ++ tokens ++
          [CounterAdd VectorSizeCounter (VInt n) shared;
           HistogramRecord (t1 - t0) shared]))
  | Raise e => (Raise e, mk_world (ext w4) (trace w3 ++ tokens))
  end.
Proof.
  intros Hd Hu shared tokens.
  assert (Ht : trace w4 = trace w3).
  { pose proof (response_as_dict_trace response w3) as H.
    rewrite Hd in H. exact H. }
  unfold metrics_on_success. unfold bind at 1. rewrite Hd.
  unfold bind at 1, pure at 1. cbn [py_get].
  unfold bind at 1, read at 1.
  unfold bind at 1, pure at 1.
  fold shared. subst tokens.
  destruct (dict_get d "usage" VNone) as [| | | | | | u |] eqn:Eu;
    cbn in Hu; try contradiction; cbn [is_not_None usage_events].
  - unfold bind at 1, ret at 1. unfold bind at 1, pure at 1.
    destruct (vec_size_of (VDict d)) as [n | e].
    + unfold bind, emit, ret. cbn [ext trace]. rewrite Ht.
      rewrite <- !app_assoc. reflexivity.
    + rewrite app_nil_r, <- Ht. destruct w4; reflexivity.
  - unfold bind at 1. unfold bind at 1, pure at 1. cbn [py_items].
    rewrite add_token_usage_run. unfold bind at 1, pure at 1.
    destruct (vec_size_of (VDict d)) as [n | e].
    + unfold bind, emit, ret. cbn [ext trace]. rewrite Ht.
      rewrite <- !app_assoc. reflexivity.
    + cbn [ext trace]. rewrite Ht. reflexivity.
Qed.

(** Whatever the success path does, it returns the response it was
    given or raises, and it records at most the one duration. *)
Lemma metrics_on_success_outcome response t0 t1 (w w' : world Ext) r :
  metrics_on_success env response t0 t1 w = (r, w') ->
  (forall v, r = Ok v -> v = response) /\
  (records_of (trace w') = records_of (trace w) \/
   exists a, records_of (trace w') =
             (records_of (trace w) ++ [((t1 - t0)%Q, a)])%list).
Proof.
  intros H.
  pose proof (response_as_dict_trace response w) as Ht.
  destruct (response_as_dict env response w) as [[rd | e] w4] eqn:Hd;
    cbn [snd] in Ht.
  2: { unfold metrics_on_success, bind at 1 in H. rewrite Hd in H.
       inversion H; subst. split; [discriminate | left; congruence]. }
  destruct rd as [| b | z | q | s | l | d | c i];
    try (unfold metrics_on_success, bind at 1 in H; rewrite Hd in H;
         unfold bind at 1, pure at 1 in H; cbn [py_get] in H;
         inversion H; subst; split; [discriminate | left; congruence]).
  destruct (dict_get d "usage" VNone) as [| b | z | q | s | l | u | c i] eqn:Eu.
  1, 7:
    rewrite (metrics_on_success_run response t0 t1 w w4 d Hd) in H
      by (rewrite Eu; exact I);
    rewrite Eu in H;
    destruct (vec_size_of (VDict d)) as [n | e]; inversion H; subst;
      cbn [trace];
      (split; [intros v Hv; congruence |]);
      rewrite !records_of_app;
      rewrite ?(proj2 (proj2 (adds_of_token_events _)));
      cbn [records_of app]; rewrite ?app_nil_r; eauto.
  all: unfold metrics_on_success, bind at 1 in H; rewrite Hd in H;
    unfold bind at 1, pure at 1 in H; cbn [py_get] in H;
    unfold bind at 1, read at 1 in H;
    unfold bind at 1, pure at 1 in H; rewrite Eu in H;
    cbn [is_not_None] in H; unfold bind at 1 in H;
    unfold bind at 1, pure at 1 in H; cbn [py_items] in H;
    inversion H; subst; split; [discriminate | left; congruence].
Qed.

Lemma metrics_call_state_active (x : Ext) :
  truthy (get_value_suppress env x) = false ->
  metrics_call_state env x = snd (time_time env x).
Proof. intros H. unfold metrics_call_state. rewrite H. reflexivity. Qed.

(** ** Vector size extraction *)

Lemma vec_size_of_first_embedding d item rest vec :
  dict_lookup "data" d = Some (VList (VDict item :: rest)) ->
  dict_lookup "embedding" item = Some (VList vec) ->
  vec_size_of (VDict d) = Ok (Z.of_nat (List.length vec)).
Proof.
  intros Hdata Hemb. unfold vec_size_of, py_get, dict_get.
  rewrite Hdata. cbn. rewrite Hemb. reflexivity.
Qed.

Lemma vec_size_of_no_data d :
  dict_lookup "data" d = None \/ dict_lookup "data" d = Some (VList []) ->
  vec_size_of (VDict d) = Ok 0%Z.
Proof.
  intros [H | H]; unfold vec_size_of, py_get, dict_get; rewrite H; reflexivity.
Qed.

Lemma vec_size_of_no_embedding d item rest :
  dict_lookup "data" d = Some (VList (VDict item :: rest)) ->
  dict_lookup "embedding" item = None ->
  vec_size_of (VDict d) = Ok 0%Z.
Proof.
  intros Hdata Hemb. unfold vec_size_of, py_get, dict_get.
  rewrite Hdata. cbn. rewrite Hemb. reflexivity.
Qed.

(** ** Properties of the metrics wrapper *)

(** C2. Exception transparency of the metrics wrapper: whenever the
    underlying call raises [e], the wrapped call raises exactly [e]; and
    when that happens through the handler's re-raise (suppression
    inactive, [e] caught by [except Exception]), the world the exception
    is delivered with already holds the error-path telemetry: the two
    counter adds of 1 and, if the duration is positive, the histogram
    record, in this order and nothing else. *)
Theorem metrics_wrapper_exception_transparency
    wrapped instance args kwargs (w : world Ext) e x2 :
  wrapped args kwargs (metrics_call_state env (ext w)) = (Raise e, x2) ->
  fst (embeddings_metrics_wrapper env wrapped instance args kwargs w) = Raise e /\
  (truthy (get_value_suppress env (ext w)) = false ->
   isinstance_Exception e = true ->
   let x3 := snd (time_time env x2) in
   let duration := (fst (time_time env x2) - fst (time_time env (ext w)))%Q in
   embeddings_metrics_wrapper env wrapped instance args kwargs w =
   (Raise e,
    mk_world x3
      (trace w ++ error_telemetry e (_get_openai_base_url env x3) duration))).
Proof.
  intros Hw. unfold metrics_call_state in Hw.
  destruct (truthy (get_value_suppress env (ext w))) eqn:Hs.
  - split; [| discriminate].
    rewrite metrics_wrapper_suppressed by exact Hs.
    unfold direct_call, lift. rewrite Hw. reflexivity.
  - destruct (isinstance_Exception e) eqn:He.
    + rewrite (metrics_wrapper_caught _ _ _ _ _ _ _ Hs Hw He).
      rewrite metrics_on_exception_run. cbn [ext trace fst].
      split; [reflexivity | intros _ _; reflexivity].
    + rewrite (metrics_wrapper_uncaught _ _ _ _ _ _ _ Hs Hw He).
      split; [reflexivity | discriminate].
Qed.

(** C6 (amended). Exception-path measurements: with suppression
    inactive, when the underlying call raises an exception that is an
    instance of [Exception], the token counter and the vector-size
    counter each receive exactly one add of amount 1, both tagged with
    exactly [error.type] = the exception's class name and
    [server.address] = the resolved base URL, and the duration histogram
    receives a record with the same attributes if and only if the
    computed duration is strictly positive. *)
Theorem exception_path_measurements
    wrapped instance args kwargs (w : world Ext) e x2 :
  truthy (get_value_suppress env (ext w)) = false ->
  wrapped args kwargs (metrics_call_state env (ext w)) = (Raise e, x2) ->
  isinstance_Exception e = true ->
  let w' := snd (embeddings_metrics_wrapper env wrapped instance args kwargs w) in
  let duration := (fst (time_time env x2) - fst (time_time env (ext w)))%Q in
  let attributes := error_attributes e (_get_openai_base_url env (ext w')) in
  adds_of TokenCounter (trace w') =
    (adds_of TokenCounter (trace w) ++ [(VInt 1, attributes)])%list /\
  adds_of VectorSizeCounter (trace w') =
    (adds_of VectorSizeCounter (trace w) ++ [(VInt 1, attributes)])%list /\
  ((0 < duration)%Q ->
   records_of (trace w') = (records_of (trace w) ++ [(duration, attributes)])%list) /\
  (~ (0 < duration)%Q -> records_of (trace w') = records_of (trace w)).
Proof.
  intros Hs Hw He.
  rewrite metrics_call_state_active in Hw by exact Hs.
  rewrite (metrics_wrapper_caught _ _ _ _ _ _ _ Hs Hw He).
  rewrite metrics_on_exception_run. cbn [snd fst ext trace].
  unfold error_telemetry.
  rewrite !adds_of_app, !records_of_app.
  pose proof (positive_iff_not_le
    (fst (time_time env x2) - fst (time_time env (ext w)))) as Hpos.
  destruct (negb (Qle_bool (fst (time_time env x2) - fst (time_time env (ext w))) 0));
    cbn [adds_of records_of app]; rewrite ?app_nil_r.
  - repeat split; try reflexivity.
    intros Hn. exfalso. apply Hn. apply Hpos. reflexivity.
  - repeat split; try reflexivity.
    intros Hp. apply Hpos in Hp. discriminate.
Qed.

(** C7 (amended). Duration safety: every value the handler records to
    the duration histogram is strictly positive, and the value recorded
    on the success path is [end_time - start_time], so every value an
    invocation records is [>= 0] provided the clock did not go backwards
    across a call that returned; and a handler entered without a start
    time takes the duration to be zero, performs the two counter adds,
    records nothing to the histogram and raises the original exception
    (no error for the missing name). *)
Theorem duration_records_nonnegative wrapped instance args kwargs (w : world Ext) :
  ((forall response x2,
      truthy (get_value_suppress env (ext w)) = false ->
      wrapped args kwargs (snd (time_time env (ext w))) = (Ok response, x2) ->
      (fst (time_time env (ext w)) <= fst (time_time env x2))%Q) ->
   forall v a,
     In (v, a)
        (records_of
           (trace (snd (embeddings_metrics_wrapper env wrapped instance args kwargs w)))) ->
     In (v, a) (records_of (trace w)) \/ (0 <= v)%Q) /\
  (forall e (w0 : world Ext),
     let x := snd (time_time env (ext w0)) in
     let attributes := error_attributes e (_get_openai_base_url env x) in
     metrics_on_exception env (A:=value) None e w0 =
     (Raise e,
      mk_world x
        (trace w0 ++ [CounterAdd TokenCounter (VInt 1) attributes;
                      CounterAdd VectorSizeCounter (VInt 1) attributes]))).
Proof.
  split.
  - intros Hclock v a Hin.
    destruct (truthy (get_value_suppress env (ext w))) eqn:Hs.
    { rewrite metrics_wrapper_suppressed, direct_call_trace in Hin by exact Hs.
      left. exact Hin. }
    destruct (wrapped args kwargs (snd (time_time env (ext w))))
      as [[response | e] x2] eqn:Hw.
    + rewrite (metrics_wrapper_returned _ _ _ _ _ _ _ Hs Hw) in Hin.
      destruct (metrics_on_success env response
                  (fst (time_time env (ext w))) (fst (time_time env x2))
                  (mk_world (snd (time_time env x2)) (trace w)))
        as [r w'] eqn:Hrun.
      apply metrics_on_success_outcome in Hrun as [_ [Hsame | [a' Hone]]];
        cbn [snd trace] in *.
      * left. rewrite <- Hsame. exact Hin.
      * rewrite Hone in Hin. apply in_app_or in Hin as [Hin | Hin];
          [left; exact Hin | right].
        destruct Hin as [Heq | []]. inversion Heq; subst.
        specialize (Hclock response x2 eq_refl eq_refl).
        unfold Qminus. rewrite <- (Qplus_opp_r (fst (time_time env (ext w)))).
        apply Qplus_le_compat; [exact Hclock | apply Qle_refl].
    + destruct (isinstance_Exception e) eqn:He.
      * rewrite (metrics_wrapper_caught _ _ _ _ _ _ _ Hs Hw He) in Hin.
        rewrite metrics_on_exception_run in Hin. cbn [snd trace ext fst] in Hin.
        unfold error_telemetry in Hin. rewrite !records_of_app in Hin.
        destruct (negb (Qle_bool (fst (time_time env x2) - fst (time_time env (ext w))) 0))
          eqn:Hpos; cbn [records_of app] in Hin.
        -- apply in_app_or in Hin as [Hin | [Heq | []]]; [left; exact Hin | right].
           inversion Heq; subst. apply Qlt_le_weak.
           apply positive_iff_not_le. exact Hpos.
        -- rewrite app_nil_r in Hin. left. exact Hin.
      * rewrite (metrics_wrapper_uncaught _ _ _ _ _ _ _ Hs Hw He) in Hin.
        left. exact Hin.
  - intros e w0. rewrite metrics_on_exception_run. reflexivity.
Qed.

(** C4. Token accounting on success: on the success path (suppression
    inactive), when the underlying call returns a response that
    normalizes to a mapping, a present usage sub-mapping makes the token
    counter receive exactly one add per usage entry whose key is in the
    allow-list, in the mapping's order, with amount the entry's count
    and tagged with the shared attributes plus [llm.usage.token_type] =
    the text of the key before its first underscore ([prompt_tokens]
    gives [prompt]); entries with other keys produce no add, and an
    absent usage sub-mapping produces no token-counter add. *)
Theorem token_accounting_on_success
    wrapped instance args kwargs (w : world Ext) response x2 d w4 :
  truthy (get_value_suppress env (ext w)) = false ->
  wrapped args kwargs (metrics_call_state env (ext w)) = (Ok response, x2) ->
  response_as_dict env response (mk_world (snd (time_time env x2)) (trace w)) =
    (Ok (VDict d), w4) ->
  let w' := snd (embeddings_metrics_wrapper env wrapped instance args kwargs w) in
  let shared := shared_attributes_of d (_get_openai_base_url env (ext w4)) in
  (forall u,
     dict_get d "usage" VNone = VDict u ->
     adds_of TokenCounter (trace w') =
     (adds_of TokenCounter (trace w) ++
      map (fun entry : string * value =>
             (snd entry,
              (shared ++ [("llm.usage.token_type",
                           VStr (split_underscore_first (fst entry)))])%list))
          (filter (fun entry : string * value =>
                     str_in (fst entry) (OPENAI_LLM_USAGE_TOKEN_TYPES env)) u))%list) /\
  (dict_get d "usage" VNone = VNone ->
   adds_of TokenCounter (trace w') = adds_of TokenCounter (trace w)) /\
  (forall a b,
     has_underscore a = false ->
     split_underscore_first (a ++ String "_"%char b) = a) /\
  split_underscore_first "prompt_tokens" = "prompt".
Proof.
  intros Hs Hw Hd w' shared.
  rewrite metrics_call_state_active in Hw by exact Hs.
  assert (Hrun : forall usage,
    dict_get d "usage" VNone = usage -> usage_well_formed usage ->
    adds_of TokenCounter (trace w') =
    (adds_of TokenCounter (trace w) ++
     adds_of TokenCounter
       (usage_events (OPENAI_LLM_USAGE_TOKEN_TYPES env) shared usage))%list).
  { intros usage Eu Hwf. subst w'.
    rewrite (metrics_wrapper_returned _ _ _ _ _ _ _ Hs Hw).
    rewrite (metrics_on_success_run _ _ _ _ _ _ Hd) by (rewrite Eu; exact Hwf).
    rewrite Eu. fold shared.
    destruct (vec_size_of (VDict d)); cbn [snd trace];
      rewrite !adds_of_app; cbn [adds_of]; rewrite ?app_nil_r; reflexivity. }
  split; [| split; [| split; [| reflexivity]]].
  - intros u Eu. rewrite (Hrun _ Eu I).
    rewrite (proj1 (usage_events_read _ _ _)). reflexivity.
  - intros Eu. rewrite (Hrun _ Eu I). cbn. apply app_nil_r.
  - apply split_underscore_first_segment.
Qed.

(** When the success path returns, the response normalized to a
    mapping with a usable [usage], the vector size was computed, and the
    operations performed are the token adds, one vector-size add and one
    duration record. *)
Lemma metrics_on_success_returns response t0 t1 (w w' : world Ext) r :
  metrics_on_success env response t0 t1 w = (Ok r, w') ->
  exists d w4 n,
    response_as_dict env response w = (Ok (VDict d), w4) /\
    usage_well_formed (dict_get d "usage" VNone) /\
    vec_size_of (VDict d) = Ok n /\
    r = response /\
    let shared := shared_attributes_of d (_get_openai_base_url env (ext w4)) in
    trace w' =
    (trace w ++
     usage_events (OPENAI_LLM_USAGE_TOKEN_TYPES env) shared (dict_get d "usage" VNone) ++
     [CounterAdd VectorSizeCounter (VInt n) shared;
      HistogramRecord (t1 - t0) shared])%list.
Proof.
  intros H.
  destruct (response_as_dict env response w) as [[rd | e] w4] eqn:Hd.
  2: { unfold metrics_on_success, bind at 1 in H. rewrite Hd in H. discriminate. }
  destruct rd as [| b | z | q | s | l | d | c i];
    try (unfold metrics_on_success, bind at 1 in H; rewrite Hd in H;
         unfold bind at 1, pure at 1 in H; cbn [py_get] in H; discriminate).
  destruct (dict_get d "usage" VNone) as [| b | z | q | s | l | u | c i] eqn:Eu.
  all: try (unfold metrics_on_success, bind at 1 in H; rewrite Hd in H;
    unfold bind at 1, pure at 1 in H; cbn [py_get] in H;
    unfold bind at 1, read at 1 in H;
    unfold bind at 1, pure at 1 in H; rewrite Eu in H;
    cbn [is_not_None] in H; unfold bind at 1 in H;
    unfold bind at 1, pure at 1 in H; cbn [py_items] in H; discriminate).
  all: rewrite (metrics_on_success_run response t0 t1 w w4 d Hd) in H
         by (rewrite Eu; exact I);
    rewrite Eu in H;
    destruct (vec_size_of (VDict d)) as [n | e] eqn:Hn; [| discriminate];
    inversion H; subst; exists d, w4, n; rewrite Eu;
    repeat split; first [assumption | reflexivity | exact I].
Qed.

(** C5 (amended). Vector-size accounting on success, with suppression
    inactive and an underlying call that returned.  Whenever the
    invocation returns normally, the vector-size counter has received
    exactly one add, tagged with the shared attributes, whose amount is
    [len] of the embedding value of the first element of the data list;
    and the invocation does return normally, with the response, whenever
    the response normalizes to a mapping whose usage is absent or a
    mapping and that [len] is defined.  The amount is the length of the
    embedding vector when the value is a list, the number of characters
    when it is a string, and 0 (without error) when the data list is
    absent or empty or its first element has no embedding field. *)
Theorem vector_size_accounting_on_success
    wrapped instance args kwargs (w : world Ext) response x2 :
  truthy (get_value_suppress env (ext w)) = false ->
  wrapped args kwargs (metrics_call_state env (ext w)) = (Ok response, x2) ->
  let run := embeddings_metrics_wrapper env wrapped instance args kwargs w in
  let w3 := mk_world (snd (time_time env x2)) (trace w) in
  (forall r,
     fst run = Ok r ->
     exists d w4 n,
       response_as_dict env response w3 = (Ok (VDict d), w4) /\
       vec_size_of (VDict d) = Ok n /\
       r = response /\
       adds_of VectorSizeCounter (trace (snd run)) =
       (adds_of VectorSizeCounter (trace w) ++
        [(VInt n, shared_attributes_of d (_get_openai_base_url env (ext w4)))])%list) /\
  (forall d w4 n,
     response_as_dict env response w3 = (Ok (VDict d), w4) ->
     usage_well_formed (dict_get d "usage" VNone) ->
     vec_size_of (VDict d) = Ok n ->
     fst run = Ok response /\
     adds_of VectorSizeCounter (trace (snd run)) =
     (adds_of VectorSizeCounter (trace w) ++
      [(VInt n, shared_attributes_of d (_get_openai_base_url env (ext w4)))])%list) /\
  (forall d item rest vec,
     dict_lookup "data" d = Some (VList (VDict item :: rest)) ->
     dict_lookup "embedding" item = Some (VList vec) ->
     vec_size_of (VDict d) = Ok (Z.of_nat (List.length vec))) /\
  (forall d item rest text,
     dict_lookup "data" d = Some (VList (VDict item :: rest)) ->
     dict_lookup "embedding" item = Some (VStr text) ->
     vec_size_of (VDict d) = Ok (Z.of_nat (String.length text))) /\
  (forall d,
     dict_lookup "data" d = None \/ dict_lookup "data" d = Some (VList []) ->
     vec_size_of (VDict d) = Ok 0%Z) /\
  (forall d item rest,
     dict_lookup "data" d = Some (VList (VDict item :: rest)) ->
     dict_lookup "embedding" item = None ->
     vec_size_of (VDict d) = Ok 0%Z).
Proof.
  intros Hs Hw run w3.
  rewrite metrics_call_state_active in Hw by exact Hs.
  assert (Erun : run =
    metrics_on_success env response
      (fst (time_time env (ext w))) (fst (time_time env x2)) w3).
  { subst run w3. exact (metrics_wrapper_returned _ _ _ _ _ _ _ Hs Hw). }
  split; [| split; [| split; [| split; [| split]]]].
  - intros r Hr. rewrite Erun in Hr |- *.
    destruct (metrics_on_success env response
                (fst (time_time env (ext w))) (fst (time_time env x2)) w3)
      as [o w'] eqn:Hrun.
    cbn [fst snd] in Hr |- *. subst o.
    destruct (metrics_on_success_returns _ _ _ _ _ _ Hrun)
      as (d & w4 & n & Hd & _ & Hn & Heq & T).
    exists d, w4, n. repeat split; try assumption.
    cbn zeta in T. rewrite T. subst w3. cbn [trace].
    rewrite !adds_of_app.
    rewrite (proj1 (proj2 (usage_events_read _ _ _))). reflexivity.
  - intros d w4 n Hd Hu Hn. rewrite Erun.
    rewrite (metrics_on_success_run _ _ _ _ _ _ Hd Hu), Hn.
    subst w3. cbn [fst snd trace]. split; [reflexivity |].
    rewrite !adds_of_app.
    rewrite (proj1 (proj2 (usage_events_read _ _ _))). reflexivity.
  - intros d. apply vec_size_of_first_embedding.
  - intros d item rest text Hdata Hemb. unfold vec_size_of, py_get, dict_get.
    rewrite Hdata. cbn. rewrite Hemb. reflexivity.
  - intros d. apply vec_size_of_no_data.
  - intros d. apply vec_size_of_no_embedding.
Qed.

(** ** The tracing wrappers *)

Lemma set_prompts_emits sp prompt :
  emits_only request_phase (_set_prompts env sp prompt).
Proof.
  unfold _set_prompts. apply emits_only_bind; [apply emits_only_read |].
  intros recording.
  destruct (negb recording || negb (truthy prompt)); [apply emits_only_ret |].
  apply emits_only_try_except.
  - destruct prompt;
      try (apply emits_only_bind;
           [apply emits_only_emit; reflexivity | intros _; apply emits_only_lift]).
    apply emits_only_for_each. intros [i p].
    apply emits_only_bind;
      [apply emits_only_emit; reflexivity | intros _; apply emits_only_lift].
  - intros e. apply emits_only_emit. reflexivity.
Qed.

Lemma handle_request_emits sp kwargs :
  emits_only request_phase (_handle_request env sp kwargs).
Proof.
  unfold _handle_request.
  apply emits_only_bind; [apply emits_only_emit; reflexivity | intros _].
  apply emits_only_bind; [apply emits_only_lift | intros _].
  apply emits_only_bind; [apply emits_only_read | intros send].
  destruct send; [apply set_prompts_emits | apply emits_only_ret].
Qed.

Lemma handle_response_emits response sp :
  emits_only inside_span (_handle_response env response sp).
Proof.
  unfold _handle_response.
  apply emits_only_bind.
  - apply emits_nothing. apply response_as_dict_trace.
  - intros rd.
    apply emits_only_bind; [apply emits_only_emit; reflexivity | intros _].
    apply emits_only_lift.
Qed.

Lemma request_phase_is_inside ev : request_phase ev = true -> inside_span ev = true.
Proof. destruct ev; cbn; congruence. Qed.

(** The body of the [with] block, for either wrapper. *)
Lemma traced_body_emits {A} (inj : value -> A) (wrapped : callable Ext) sp args kwargs :
  emits_only inside_span
    (bind (_handle_request env sp kwargs) (fun _ =>
     bind (lift (wrapped args kwargs)) (fun response =>
     bind (_handle_response env response sp) (fun _ =>
     ret (inj response))))).
Proof.
  apply emits_only_bind.
  - apply (emits_only_weaken request_phase);
      [exact request_phase_is_inside | apply handle_request_emits].
  - intros _. apply emits_only_bind; [apply emits_only_lift | intros response].
    apply emits_only_bind; [apply handle_response_emits | intros _].
    apply emits_only_ret.
Qed.

Lemma with_span_life_cycle {A} name kind attributes
    (body : span -> world Ext -> outcome A * world Ext) (w : world Ext) :
  (forall sp, emits_only inside_span (body sp)) ->
  exists d,
    trace (snd (with_span env name kind attributes body w)) = (trace w ++ d)%list /\
    span_run NotStarted d = Some Ended /\
    List.length (filter is_span_end d) = 1%nat.
Proof.
  intros Hbody. unfold with_span.
  destruct (start_as_current_span env name kind attributes (ext w)) as [sp x1].
  destruct (body sp (mk_world x1 (trace w ++ [SpanStart name kind attributes])))
    as [r w2] eqn:Eb.
  destruct (Hbody sp _ _ _ Eb) as (d & T & F). cbn [trace] in T.
  destruct (inside_span_run d F) as [Hrun Hend].
  exists (SpanStart name kind attributes :: d ++ [SpanEnd])%list.
  cbn [snd trace]. split; [| split].
  - rewrite T, <- !app_assoc. reflexivity.
  - cbn. rewrite span_run_app, Hrun. reflexivity.
  - cbn. rewrite filter_app, Hend. reflexivity.
Qed.

Lemma embeddings_wrapper_active wrapped instance args kwargs (w : world Ext) :
  truthy (get_value_suppress env (ext w)) = false ->
  embeddings_wrapper env wrapped instance args kwargs w =
  with_span env SPAN_NAME CLIENT
    [(SpanAttributes_LLM_REQUEST_TYPE, VStr LLM_REQUEST_TYPE)]
    (fun sp =>
       bind (_handle_request env sp kwargs) (fun _ =>
       bind (lift (wrapped args kwargs)) (fun response =>
       bind (_handle_response env response sp) (fun _ =>
       ret response)))) w.
Proof.
  intros Hs. unfold embeddings_wrapper, bind at 1, read. rewrite Hs. reflexivity.
Qed.

Lemma aembeddings_wrapper_active wrapped instance args kwargs (w : world Ext) :
  truthy (get_value_suppress env (ext w)) = false ->
  aembeddings_wrapper env wrapped instance args kwargs w =
  with_span env SPAN_NAME CLIENT
    [(SpanAttributes_LLM_REQUEST_TYPE, VStr LLM_REQUEST_TYPE)]
    (fun sp =>
       bind (_handle_request env sp kwargs) (fun _ =>
       bind (lift (wrapped args kwargs)) (fun response =>
       bind (_handle_response env response sp) (fun _ =>
       ret (Plain response))))) w.
Proof.
  intros Hs. unfold aembeddings_wrapper, bind at 1, read. rewrite Hs. reflexivity.
Qed.

(** The run of the [with] block once the request phase has returned
    and the underlying call has produced its outcome. *)
Lemma with_span_after_call {A} (inj : value -> A) (wrapped : callable Ext)
    args kwargs (w w1 : world Ext) sp x1 r x2 :
  let attributes := [(SpanAttributes_LLM_REQUEST_TYPE, VStr LLM_REQUEST_TYPE)] in
  start_as_current_span env SPAN_NAME CLIENT attributes (ext w) = (sp, x1) ->
  _handle_request env sp kwargs
    (mk_world x1 (trace w ++ [SpanStart SPAN_NAME CLIENT attributes])) = (Ok tt, w1) ->
  wrapped args kwargs (ext w1) = (r, x2) ->
  with_span env SPAN_NAME CLIENT attributes
    (fun sp =>
       bind (_handle_request env sp kwargs) (fun _ =>
       bind (lift (wrapped args kwargs)) (fun response =>
       bind (_handle_response env response sp) (fun _ =>
       ret (inj response))))) w =
  match r with
  | Raise e =>
      (Raise e, mk_world (span_exit env sp (Some e) x2) (trace w1 ++ [SpanEnd]))
  | Ok response =>
      match _handle_response env response sp (mk_world x2 (trace w1)) with
      | (Ok _, w3) =>
          (Ok (inj response),
           mk_world (span_exit env sp None (ext w3)) (trace w3 ++ [SpanEnd]))
      | (Raise e, w3) =>
          (Raise e,
           mk_world (span_exit env sp (Some e) (ext w3)) (trace w3 ++ [SpanEnd]))
      end
  end.
Proof.
  intros attributes Hstart Hreq Hw. unfold with_span. rewrite Hstart.
  unfold bind at 1. rewrite Hreq. unfold bind at 1, lift. rewrite Hw.
  destruct r as [response | e]; [| reflexivity].
  unfold bind at 1.
  destruct (_handle_response env response sp (mk_world x2 (trace w1)))
    as [[[] | e] w3]; reflexivity.
Qed.

(** C8. Span life cycle: with suppression inactive, the operations
    either tracing wrapper performs on an invocation take the span from
    not-started through recording to ended, with exactly one end, on
    every exit path; and when the underlying call raises [e], the
    wrapper raises exactly [e], the span's end is the last operation,
    and no response attributes were set. *)
Theorem span_ends_exactly_once wrapped instance args kwargs (w : world Ext) :
  truthy (get_value_suppress env (ext w)) = false ->
  let attributes := [(SpanAttributes_LLM_REQUEST_TYPE, VStr LLM_REQUEST_TYPE)] in
  let started := SpanStart SPAN_NAME CLIENT attributes in
  (exists d,
     trace (snd (embeddings_wrapper env wrapped instance args kwargs w)) =
       (trace w ++ d)%list /\
     span_run NotStarted d = Some Ended /\
     List.length (filter is_span_end d) = 1%nat) /\
  (exists d,
     trace (snd (aembeddings_wrapper env wrapped instance args kwargs w)) =
       (trace w ++ d)%list /\
     span_run NotStarted d = Some Ended /\
     List.length (filter is_span_end d) = 1%nat) /\
  (forall sp x1 w1 e x2,
     start_as_current_span env SPAN_NAME CLIENT attributes (ext w) = (sp, x1) ->
     _handle_request env sp kwargs (mk_world x1 (trace w ++ [started])) = (Ok tt, w1) ->
     wrapped args kwargs (ext w1) = (Raise e, x2) ->
     let final := mk_world (span_exit env sp (Some e) x2) (trace w1 ++ [SpanEnd]) in
     embeddings_wrapper env wrapped instance args kwargs w = (Raise e, final) /\
     aembeddings_wrapper env wrapped instance args kwargs w = (Raise e, final) /\
     exists d,
       trace final = (trace w ++ started :: d ++ [SpanEnd])%list /\
       filter is_response_attributes d = [] /\
       filter is_span_end d = []).
Proof.
  intros Hs attributes started. split; [| split].
  - rewrite embeddings_wrapper_active by exact Hs.
    apply with_span_life_cycle. intros sp.
    apply (traced_body_emits (fun v => v)).
  - rewrite aembeddings_wrapper_active by exact Hs.
    apply with_span_life_cycle. intros sp.
    apply (traced_body_emits Plain).
  - intros sp x1 w1 e x2 Hstart Hreq Hw final.
    rewrite embeddings_wrapper_active, aembeddings_wrapper_active by exact Hs.
    rewrite (with_span_after_call (fun v => v) _ _ _ _ _ _ _ _ _ Hstart Hreq Hw).
    rewrite (with_span_after_call Plain _ _ _ _ _ _ _ _ _ Hstart Hreq Hw).
    split; [reflexivity | split; [reflexivity |]].
    destruct (handle_request_emits sp kwargs _ _ _ Hreq) as (d & T & F).
    cbn [trace] in T. exists d. subst final. cbn [trace].
    destruct (request_phase_inside d F) as [Hin Hresp].
    destruct (inside_span_run d Hin) as [_ Hend].
    rewrite T, <- !app_assoc. repeat split; assumption.
Qed.

(** C10. Empty-prompt guard: if the span is not recording, or the
    prompt is falsy (the [None] that an absent [input] key yields, the
    empty string, the empty list), the prompt-setting step returns
    normally and leaves the world as it was: no prompt attribute is set,
    nothing is logged, nothing is raised. *)
Theorem empty_prompt_guard sp prompt (w : world Ext) :
  (is_recording env sp (ext w) = false \/ truthy prompt = false ->
   _set_prompts env sp prompt w = (Ok tt, w)) /\
  (prompt = VNone \/ prompt = VStr "" \/ prompt = VList [] ->
   truthy prompt = false) /\
  (forall kwargs : list (string * value),
     dict_lookup "input" kwargs = None ->
     dict_get kwargs "input" VNone = VNone).
Proof.
  split; [| split].
  - intros H. unfold _set_prompts, bind, read.
    destruct H as [H | H]; rewrite H; [reflexivity |].
    rewrite orb_true_r. reflexivity.
  - intros [H | [H | H]]; subst; reflexivity.
  - intros kwargs H. unfold dict_get. rewrite H. reflexivity.
Qed.

(** ** Prompt attributes *)

Section PromptLoop.

Variable sp : span.
Variable body : nat * value -> world Ext -> outcome unit * world Ext.
Hypothesis body_eq : forall i p w,
  body (i, p) w =
  bind (emit (prompt_event (i, p)))
       (fun _ => lift (_set_span_attribute env sp (prompt_name i) p)) w.

Lemma prompt_loop_ok (ips : list (nat * value)) (w : world Ext) :
  (forall ip, In ip ips -> sets_normally env sp ip) ->
  exists x',
    for_each ips body w =
    (Ok tt, mk_world x' (trace w ++ map prompt_event ips)).
Proof.
  revert w. induction ips as [| [i p] ips IH]; intros w Hok.
  - exists (ext w). cbn. rewrite app_nil_r. destruct w; reflexivity.
  - cbn [for_each]. unfold bind at 1. rewrite body_eq.
    unfold bind at 1, emit at 1, lift at 1. cbn [ext trace].
    destruct (Hok (i, p) (or_introl eq_refl) (ext w)) as [x1 E].
    cbn [fst snd] in E. rewrite E.
    destruct (IH (mk_world x1 (trace w ++ [prompt_event (i, p)])))
      as [x' E'].
    { intros ip Hin. apply Hok. right. exact Hin. }
    exists x'. rewrite E'. cbn [trace map]. rewrite <- app_assoc. reflexivity.
Qed.

Lemma prompt_loop_fail (pre post : list (nat * value)) ip e (w : world Ext) :
  (forall iq, In iq pre -> sets_normally env sp iq) ->
  set_raises env sp ip e ->
  exists x',
    for_each (pre ++ ip :: post) body w =
    (Raise e, mk_world x' (trace w ++ map prompt_event pre ++ [prompt_event ip])).
Proof.
  intros Hok Hfail.
  destruct (prompt_loop_ok pre w Hok) as [x1 E1].
  revert w x1 E1 Hok. induction pre as [| [j q] pre IH]; intros w x1 E1 Hok.
  - destruct ip as [i p]. cbn [app for_each map]. unfold bind at 1.
    rewrite body_eq. unfold bind at 1, emit at 1, lift at 1. cbn [ext trace].
    destruct (Hfail (ext w)) as [x' E]. cbn [fst snd] in E. rewrite E.
    exists x'. reflexivity.
  - cbn [app for_each]. unfold bind at 1. rewrite body_eq.
    unfold bind at 1, emit at 1, lift at 1. cbn [ext trace].
    destruct (Hok (j, q) (or_introl eq_refl) (ext w)) as [x2 E].
    cbn [fst snd] in E. rewrite E.
    destruct (prompt_loop_ok pre (mk_world x2 (trace w ++ [prompt_event (j, q)])))
      as [x3 E3].
    { intros iq Hin. apply Hok. right. exact Hin. }
    destruct (IH (mk_world x2 (trace w ++ [prompt_event (j, q)])) x3 E3)
      as [x' E'].
    { intros iq Hin. apply Hok. right. exact Hin. }
    exists x'. rewrite E'. cbn [trace map]. rewrite <- !app_assoc. reflexivity.
Qed.

End PromptLoop.

(** C9 (amended). Prompt attribute extraction, for a recording span.
    For a non-empty list whose elements the attribute setter accepts,
    the step returns normally and calls the setter once per element, in
    order, element [i] under [llm.prompts.<i>.content]; for a non-empty
    string it calls it once, under [llm.prompts.0.content].  When the
    setter raises an [Exception] on some element, the step logs a
    warning and returns normally without visiting the later elements,
    and the calls made for the earlier elements stand. *)
Theorem prompt_attribute_extraction sp (w : world Ext) :
  is_recording env sp (ext w) = true ->
  (forall items,
     items <> [] ->
     (forall ip, In ip (enumerate items) -> sets_normally env sp ip) ->
     exists x',
       _set_prompts env sp (VList items) w =
       (Ok tt, mk_world x' (trace w ++ map prompt_event (enumerate items)))) /\
  (forall items i,
     nth_error (map prompt_event (enumerate items)) i =
     option_map
       (SetSpanAttribute (SpanAttributes_LLM_PROMPTS ++ "." ++ str_of_nat i ++ ".content"))
       (nth_error items i)) /\
  (forall s,
     s <> "" ->
     sets_normally env sp (0%nat, VStr s) ->
     exists x',
       _set_prompts env sp (VStr s) w =
       (Ok tt,
        mk_world x'
          (trace w ++ [SetSpanAttribute "llm.prompts.0.content" (VStr s)]))) /\
  (forall items pre ip post e,
     enumerate items = (pre ++ ip :: post)%list ->
     (forall iq, In iq pre -> sets_normally env sp iq) ->
     set_raises env sp ip e ->
     isinstance_Exception e = true ->
     exists x',
       _set_prompts env sp (VList items) w =
       (Ok tt,
        mk_world x'
          (trace w ++ map prompt_event pre ++ [prompt_event ip; prompt_warning e]))).
Proof.
  intros Hrec. split; [| split; [| split]].
  - intros items Hne Hok.
    unfold _set_prompts, bind at 1, read. rewrite Hrec.
    destruct items as [| p0 items]; [congruence |].
    cbn [negb truthy orb]. unfold try_except.
    match goal with
    | |- context [for_each _ ?b w] =>
        destruct (prompt_loop_ok sp b (fun i p w => eq_refl)
                    (enumerate (p0 :: items)) w Hok) as [x' E]
    end.
    rewrite E. exists x'. reflexivity.
  - intros items i. rewrite nth_error_map, nth_error_enumerate.
    destruct (nth_error items i); reflexivity.
  - intros s Hne Hok.
    unfold _set_prompts, bind at 1, read. rewrite Hrec.
    cbn [negb truthy orb]. apply String.eqb_neq in Hne. rewrite Hne.
    cbn [negb]. unfold try_except, bind, emit, lift. cbn [ext trace].
    destruct (Hok (ext w)) as [x' E]. cbn [fst snd] in E.
    change (prompt_name 0) with "llm.prompts.0.content" in E.
    change (SpanAttributes_LLM_PROMPTS ++ ".0.content") with "llm.prompts.0.content".
    rewrite E. exists x'. reflexivity.
  - intros items pre ip post e Henum Hok Hfail He.
    unfold _set_prompts, bind at 1, read. rewrite Hrec.
    destruct items as [| p0 items].
    { destruct pre; discriminate. }
    cbn [negb truthy orb]. unfold try_except. rewrite Henum.
    match goal with
    | |- context [for_each _ ?b w] =>
        destruct (prompt_loop_fail sp b (fun i p w => eq_refl)
                    pre post ip e w Hok Hfail) as [x' E]
    end.
    rewrite E, He. unfold emit. cbn [ext trace]. exists x'.
    unfold prompt_warning. rewrite <- !app_assoc. reflexivity.
Qed.

Lemma prompt_loop_raise_origin sp
    (body : nat * value -> world Ext -> outcome unit * world Ext)
    (ips : list (nat * value)) (w w' : world Ext) e :
  (forall i p w,
     body (i, p) w =
     bind (emit (prompt_event (i, p)))
          (fun _ => lift (_set_span_attribute env sp (prompt_name i) p)) w) ->
  for_each ips body w = (Raise e, w') ->
  exists name v x x', _set_span_attribute env sp name v x = (Raise e, x').
Proof.
  intros Hbody. revert w. induction ips as [| [i p] ips IH]; intros w H.
  - discriminate.
  - cbn [for_each] in H. unfold bind at 1 in H. rewrite Hbody in H.
    unfold bind at 1, emit at 1, lift at 1 in H. cbn [ext trace] in H.
    destruct (_set_span_attribute env sp (prompt_name i) p (ext w))
      as [[[] | e1] x1] eqn:E.
    + exact (IH _ H).
    + inversion H; subst. eauto.
Qed.

(** An [Exception] raised by the attribute setter never leaves the
    prompt-setting step. *)
Lemma set_prompts_guarded sp prompt (w : world Ext) :
  (forall name v x e x',
     _set_span_attribute env sp name v x = (Raise e, x') ->
     isinstance_Exception e = true) ->
  exists w', _set_prompts env sp prompt w = (Ok tt, w').
Proof.
  intros Hexc. unfold _set_prompts, bind at 1, read.
  destruct (negb (is_recording env sp (ext w)) || negb (truthy prompt));
    [eexists; reflexivity |].
  unfold try_except.
  match goal with
  | |- context [match ?run with _ => _ end] => destruct run as [[[] | e] w1] eqn:E
  end; [eexists; reflexivity |].
  assert (He : isinstance_Exception e = true).
  { destruct prompt;
      try (unfold bind, emit, lift in E; cbn [ext trace] in E;
           match type of E with
           | context [_set_span_attribute env sp ?n ?v ?x] =>
               destruct (_set_span_attribute env sp n v x) as [[[] | e1] x1] eqn:E1
           end; inversion E; subst; exact (Hexc _ _ _ _ _ E1)).
    destruct (prompt_loop_raise_origin sp _ _ _ _ _ (fun i p w => eq_refl) E)
      as (name & v & x & x' & E1).
    exact (Hexc _ _ _ _ _ E1). }
  rewrite He. unfold emit. eexists; reflexivity.
Qed.

(** ** Suppression *)

Lemma embeddings_wrapper_suppressed wrapped instance args kwargs (w : world Ext) :
  truthy (get_value_suppress env (ext w)) = true ->
  embeddings_wrapper env wrapped instance args kwargs w =
  direct_call wrapped args kwargs w.
Proof.
  intros H. unfold embeddings_wrapper, direct_call, bind, read.
  rewrite H. reflexivity.
Qed.

(** Under suppression the asynchronous wrapper hands back the coroutine
    of the underlying call without running it. *)
Lemma aembeddings_wrapper_suppressed wrapped instance args kwargs (w : world Ext) :
  truthy (get_value_suppress env (ext w)) = true ->
  aembeddings_wrapper env wrapped instance args kwargs w =
  (Ok (Coroutine (wrapped args kwargs)), w).
Proof.
  intros H. unfold aembeddings_wrapper, bind, read, ret.
  rewrite H. reflexivity.
Qed.

(** C3 (amended). Telemetry and the caller: when the underlying call
    returns a result and the telemetry steps that follow it return
    normally, each wrapper returns that result; under suppression the
    metrics wrapper and the synchronous tracing wrapper return it
    unconditionally; and an [Exception] raised by the attribute setter
    while prompts are being set is caught, so the prompt-setting step
    itself always returns normally.  (An exception raised by any other
    telemetry step is not caught.) *)
Theorem telemetry_and_the_caller wrapped instance args kwargs (w : world Ext) :
  let attributes := [(SpanAttributes_LLM_REQUEST_TYPE, VStr LLM_REQUEST_TYPE)] in
  (forall response x2,
     truthy (get_value_suppress env (ext w)) = true ->
     wrapped args kwargs (ext w) = (Ok response, x2) ->
     embeddings_metrics_wrapper env wrapped instance args kwargs w =
       (Ok response, mk_world x2 (trace w)) /\
     embeddings_wrapper env wrapped instance args kwargs w =
       (Ok response, mk_world x2 (trace w))) /\
  (forall response x2 v w',
     truthy (get_value_suppress env (ext w)) = false ->
     wrapped args kwargs (metrics_call_state env (ext w)) = (Ok response, x2) ->
     metrics_on_success env response
       (fst (time_time env (ext w))) (fst (time_time env x2))
       (mk_world (snd (time_time env x2)) (trace w)) = (Ok v, w') ->
     embeddings_metrics_wrapper env wrapped instance args kwargs w =
       (Ok response, w')) /\
  (forall sp x1 w1 response x2 w3,
     truthy (get_value_suppress env (ext w)) = false ->
     start_as_current_span env SPAN_NAME CLIENT attributes (ext w) = (sp, x1) ->
     _handle_request env sp kwargs
       (mk_world x1 (trace w ++ [SpanStart SPAN_NAME CLIENT attributes])) = (Ok tt, w1) ->
     wrapped args kwargs (ext w1) = (Ok response, x2) ->
     _handle_response env response sp (mk_world x2 (trace w1)) = (Ok tt, w3) ->
     let final := mk_world (span_exit env sp None (ext w3)) (trace w3 ++ [SpanEnd]) in
     embeddings_wrapper env wrapped instance args kwargs w = (Ok response, final) /\
     aembeddings_wrapper env wrapped instance args kwargs w =
       (Ok (Plain response), final)) /\
  (forall sp prompt (w0 : world Ext),
     (forall name v x e x',
        _set_span_attribute env sp name v x = (Raise e, x') ->
        isinstance_Exception e = true) ->
     exists w', _set_prompts env sp prompt w0 = (Ok tt, w')).
Proof.
  intros attributes. split; [| split; [| split]].
  - intros response x2 Hs Hw.
    rewrite metrics_wrapper_suppressed, embeddings_wrapper_suppressed by exact Hs.
    unfold direct_call, lift. rewrite Hw. split; reflexivity.
  - intros response x2 v w' Hs Hw Hrun.
    rewrite metrics_call_state_active in Hw by exact Hs.
    rewrite (metrics_wrapper_returned _ _ _ _ _ _ _ Hs Hw).
    destruct (metrics_on_success_outcome _ _ _ _ _ _ Hrun) as [Hv _].
    rewrite Hrun, (Hv v eq_refl). reflexivity.
  - intros sp x1 w1 response x2 w3 Hs Hstart Hreq Hw Hresp final.
    rewrite embeddings_wrapper_active, aembeddings_wrapper_active by exact Hs.
    rewrite (with_span_after_call (fun v => v) _ _ _ _ _ _ _ _ _ Hstart Hreq Hw).
    rewrite (with_span_after_call Plain _ _ _ _ _ _ _ _ _ Hstart Hreq Hw).
    rewrite Hresp. split; reflexivity.
  - intros sp prompt w0. apply set_prompts_guarded.
Qed.

End Properties.


(** ** The properties on the concrete environment *)

(** The end-to-end scenario of the specification: the span carries the
    request type, the request and response model and the prompt; the
    token counter is incremented by 5 for [prompt]; the vector-size
    counter by 2; the histogram receives one positive record. *)
Example end_to_end_tracing :
  let run := embeddings_wrapper Demo.env (Demo.returns Demo.response) VNone []
               Demo.kwargs (Demo.initial [] false) in
  fst run = Ok Demo.response /\
  Demo.span_attributes (ext (snd run)) =
    [("llm.request.type", VStr "embedding");
     ("llm.request.model", VStr "text-embedding-ada-002");
     ("llm.prompts.0.content", VStr "hello");
     ("llm.response.model", VStr "text-embedding-ada-002")] /\
  Demo.span_ended (ext (snd run)) = 1%nat.
Proof. repeat split. Qed.

Example end_to_end_metrics :
  let run := embeddings_metrics_wrapper Demo.env (Demo.returns Demo.response) VNone []
               Demo.kwargs (Demo.initial [1%Q; 3%Q] false) in
  let shared :=
    [("llm.response.model", VStr "text-embedding-ada-002");
     ("server.address", VStr "https://api.openai.com/v1/")] in
  fst run = Ok Demo.response /\
  trace (snd run) =
    [CounterAdd TokenCounter (VInt 5)
       (shared ++ [("llm.usage.token_type", VStr "prompt")])%list;
     CounterAdd VectorSizeCounter (VInt 2) shared;
     HistogramRecord (3 - 1)%Q shared].
Proof. repeat split. Qed.

(** C1. Passthrough under suppression fails for the asynchronous
    wrapper: with the suppression flag set, awaiting the underlying call
    directly runs it and yields its response (or raises its exception),
    whereas awaiting the wrapped call yields the coroutine object of the
    underlying call, which has not run, and raises nothing. *)
Theorem aembeddings_wrapper_suppressed_not_passthrough :
  let w := Demo.initial [] true in
  let boom := ValueError "boom" in
  direct_await (Demo.returns Demo.response) [] Demo.kwargs w =
    (Ok (Plain Demo.response), mk_world (Demo.called (ext w)) []) /\
  aembeddings_wrapper Demo.env (Demo.returns Demo.response) VNone [] Demo.kwargs w =
    (Ok (Coroutine (Demo.returns Demo.response [] Demo.kwargs)), w) /\
  fst (direct_await (Demo.raises boom) [] Demo.kwargs w) = Raise boom /\
  aembeddings_wrapper Demo.env (Demo.raises boom) VNone [] Demo.kwargs w =
    (Ok (Coroutine (Demo.raises boom [] Demo.kwargs)), w).
Proof. repeat split. Qed.

(** C2 on the concrete environment. *)
Lemma metrics_wrapper_exception_transparency_witness :
  let w := Demo.initial [1%Q; 3%Q] false in
  let e := ValueError "boom" in
  let run := embeddings_metrics_wrapper Demo.env (Demo.raises e) VNone [] Demo.kwargs w in
  let attributes :=
    [("error.type", VStr "ValueError");
     ("server.address", VStr "https://api.openai.com/v1/")] in
  Demo.raises e [] Demo.kwargs (metrics_call_state Demo.env (ext w)) =
    (Raise e, Demo.called (snd (Demo.read_clock (ext w)))) /\
  fst run = Raise e /\
  trace (snd run) =
    [CounterAdd TokenCounter (VInt 1) attributes;
     CounterAdd VectorSizeCounter (VInt 1) attributes;
     HistogramRecord (3 - 1)%Q attributes].
Proof.
  intros w e run attributes.
  destruct (metrics_wrapper_exception_transparency Demo.env (Demo.raises e)
              VNone [] Demo.kwargs w e _ eq_refl) as [H1 H2].
  split; [reflexivity | split; [exact H1 |]].
  subst run. rewrite (H2 eq_refl eq_refl). reflexivity.
Defined.

(** C3, as stated, fails: the underlying call returns a response whose
    first result has [None] for its embedding, and the metrics wrapper
    raises the [TypeError] of [len(None)] instead of returning it. *)
Lemma telemetry_failure_reaches_caller :
  let w := Demo.initial [1%Q; 3%Q] false in
  let wrapped := Demo.returns Demo.response_null_embedding in
  fst (wrapped [] Demo.kwargs (metrics_call_state Demo.env (ext w))) =
    Ok Demo.response_null_embedding /\
  fst (embeddings_metrics_wrapper Demo.env wrapped VNone [] Demo.kwargs w) =
    Raise (TypeError "object of type 'NoneType' has no len()").
Proof. split; reflexivity. Qed.

(** C3 (amended) on the concrete environment. *)
Lemma telemetry_and_the_caller_witness :
  let attributes := [(SpanAttributes_LLM_REQUEST_TYPE, VStr LLM_REQUEST_TYPE)] in
  let wrapped := Demo.returns Demo.response in
  fst (embeddings_metrics_wrapper Demo.env wrapped VNone [] Demo.kwargs
         (Demo.initial [] true)) = Ok Demo.response /\
  fst (embeddings_metrics_wrapper Demo.env wrapped VNone [] Demo.kwargs
         (Demo.initial [1%Q; 3%Q] false)) = Ok Demo.response /\
  fst (embeddings_wrapper Demo.env wrapped VNone [] Demo.kwargs
         (Demo.initial [] false)) = Ok Demo.response /\
  fst (aembeddings_wrapper Demo.env wrapped VNone [] Demo.kwargs
         (Demo.initial [] false)) = Ok (Plain Demo.response) /\
  exists w',
    _set_prompts Demo.env tt (VList [VStr "a"; VDict []]) (Demo.initial [] false) =
    (Ok tt, w').
Proof.
  intros attributes wrapped.
  split; [| split; [| split; [| split]]].
  - destruct (telemetry_and_the_caller Demo.env wrapped VNone [] Demo.kwargs
                (Demo.initial [] true)) as (H & _).
    destruct (H Demo.response _ eq_refl eq_refl) as [H1 _].
    rewrite H1. reflexivity.
  - destruct (telemetry_and_the_caller Demo.env wrapped VNone [] Demo.kwargs
                (Demo.initial [1%Q; 3%Q] false)) as (_ & H & _).
    erewrite H; try reflexivity. vm_compute. reflexivity.
  - destruct (telemetry_and_the_caller Demo.env wrapped VNone [] Demo.kwargs
                (Demo.initial [] false)) as (_ & _ & H & _).
    edestruct H as [H1 _]; [try (vm_compute; reflexivity) .. |].
    rewrite H1. reflexivity.
  - destruct (telemetry_and_the_caller Demo.env wrapped VNone [] Demo.kwargs
                (Demo.initial [] false)) as (_ & _ & H & _).
    edestruct H as [_ H2]; [try (vm_compute; reflexivity) .. |].
    rewrite H2. reflexivity.
  - destruct (telemetry_and_the_caller Demo.env wrapped VNone [] Demo.kwargs
                (Demo.initial [] false)) as (_ & _ & _ & H).
    apply H. intros name v x e x' E. cbn in E. unfold Demo.strict_set_attribute in E.
    destruct v; inversion E; reflexivity.
Defined.

(** C4 on the concrete environment. *)
Lemma token_accounting_on_success_witness :
  let w := Demo.initial [1%Q; 3%Q] false in
  let run := embeddings_metrics_wrapper Demo.env (Demo.returns Demo.response) VNone []
               Demo.kwargs w in
  adds_of TokenCounter (trace (snd run)) =
    [(VInt 5,
      [("llm.response.model", VStr "text-embedding-ada-002");
       ("server.address", VStr "https://api.openai.com/v1/");
       ("llm.usage.token_type", VStr "prompt")])].
Proof.
  intros w run.
  edestruct (token_accounting_on_success Demo.env (Demo.returns Demo.response)
               VNone [] Demo.kwargs w Demo.response) as (H & _ & _);
    [reflexivity | reflexivity | vm_compute; reflexivity |].
  subst run. rewrite (H _ eq_refl). reflexivity.
Defined.

(** C5, as stated, fails on the success path.  With suppression
    inactive, an invocation whose response carries the first embedding
    as base64 text succeeds, and the amount added is 12, the number of
    characters of the text, not the length of the vector it stands for;
    and when the first result has [None] for its embedding, the
    underlying call returns and the vector-size counter receives no add,
    the wrapper raising the [TypeError] of [len(None)]. *)
Lemma vector_size_is_len_of_embedding_value :
  let w := Demo.initial [1%Q; 3%Q] false in
  let shared :=
    [("llm.response.model", VStr "text-embedding-ada-002");
     ("server.address", VStr "https://api.openai.com/v1/")] in
  let text := embeddings_metrics_wrapper Demo.env (Demo.returns Demo.response_base64)
                VNone [] Demo.kwargs w in
  let null := embeddings_metrics_wrapper Demo.env
                (Demo.returns Demo.response_null_embedding) VNone [] Demo.kwargs w in
  (truthy (get_value_suppress Demo.env (ext w)) = false /\
   fst text = Ok Demo.response_base64 /\
   adds_of VectorSizeCounter (trace (snd text)) = [(VInt 12, shared)] /\
   String.length "AAAAAAAAgD8=" = 12%nat) /\
  (fst (Demo.returns Demo.response_null_embedding [] Demo.kwargs
          (metrics_call_state Demo.env (ext w))) =
     Ok Demo.response_null_embedding /\
   fst null = Raise (TypeError "object of type 'NoneType' has no len()") /\
   adds_of VectorSizeCounter (trace (snd null)) = []).
Proof. repeat split. Qed.

(** C5 (amended) on the concrete environment: a vector of two
    components, and the base64 text. *)
Lemma vector_size_accounting_on_success_witness :
  let w := Demo.initial [1%Q; 3%Q] false in
  let shared :=
    [("llm.response.model", VStr "text-embedding-ada-002");
     ("server.address", VStr "https://api.openai.com/v1/")] in
  let run := embeddings_metrics_wrapper Demo.env (Demo.returns Demo.response) VNone []
               Demo.kwargs w in
  let text := embeddings_metrics_wrapper Demo.env (Demo.returns Demo.response_base64)
                VNone [] Demo.kwargs w in
  (fst run = Ok Demo.response /\
   adds_of VectorSizeCounter (trace (snd run)) = [(VInt 2, shared)]) /\
  (exists d w4 n,
     response_as_dict Demo.env Demo.response_base64
       (mk_world (snd (Demo.read_clock (Demo.called (snd (Demo.read_clock (ext w)))))) []) =
       (Ok (VDict d), w4) /\
     vec_size_of (VDict d) = Ok n /\
     adds_of VectorSizeCounter (trace (snd text)) =
       [(VInt n, shared_attributes_of d (_get_openai_base_url Demo.env (ext w4)))]).
Proof.
  intros w shared run text. split.
  - destruct (vector_size_accounting_on_success Demo.env (Demo.returns Demo.response)
                VNone [] Demo.kwargs w Demo.response _ eq_refl eq_refl)
      as (_ & H & _).
    edestruct H as [H1 H2]; [vm_compute; reflexivity | exact I | reflexivity |].
    split; [exact H1 |]. subst run. rewrite H2. reflexivity.
  - destruct (vector_size_accounting_on_success Demo.env
                (Demo.returns Demo.response_base64)
                VNone [] Demo.kwargs w Demo.response_base64 _ eq_refl eq_refl)
      as (H & _).
    destruct (H Demo.response_base64 eq_refl) as (d & w4 & n & Hd & Hn & _ & Hadds).
    exists d, w4, n. repeat split; assumption.
Defined.

(** C6, as stated, fails for an exception outside [Exception]: the
    underlying call raises [KeyboardInterrupt] with suppression inactive
    and neither counter receives an add. *)
Lemma exception_path_skipped_for_base_exception :
  let w := Demo.initial [1%Q; 3%Q] false in
  let run := embeddings_metrics_wrapper Demo.env (Demo.raises KeyboardInterrupt)
               VNone [] Demo.kwargs w in
  truthy (get_value_suppress Demo.env (ext w)) = false /\
  fst (Demo.raises KeyboardInterrupt [] Demo.kwargs (metrics_call_state Demo.env (ext w))) =
    Raise KeyboardInterrupt /\
  fst run = Raise KeyboardInterrupt /\
  adds_of TokenCounter (trace (snd run)) = [] /\
  adds_of VectorSizeCounter (trace (snd run)) = [].
Proof. repeat split. Qed.

(** C6 (amended) on the concrete environment. *)
Lemma exception_path_measurements_witness :
  let w := Demo.initial [1%Q; 3%Q] false in
  let e := ValueError "boom" in
  let run := embeddings_metrics_wrapper Demo.env (Demo.raises e) VNone [] Demo.kwargs w in
  let attributes :=
    [("error.type", VStr "ValueError");
     ("server.address", VStr "https://api.openai.com/v1/")] in
  adds_of TokenCounter (trace (snd run)) = [(VInt 1, attributes)] /\
  adds_of VectorSizeCounter (trace (snd run)) = [(VInt 1, attributes)] /\
  records_of (trace (snd run)) = [((3 - 1)%Q, attributes)].
Proof.
  intros w e run attributes.
  edestruct (exception_path_measurements Demo.env (Demo.raises e) VNone []
               Demo.kwargs w e) as (H1 & H2 & H3 & _);
    [reflexivity | reflexivity | reflexivity |].
  subst run. rewrite H1, H2, H3; [repeat split | reflexivity].
Defined.

(** C7, as stated, fails on the success path: the clock reads 5 before
    the call and 3 after it, and the histogram receives the value -2. *)
Lemma negative_duration_recorded :
  let w := Demo.initial [5%Q; 3%Q] false in
  let run := embeddings_metrics_wrapper Demo.env (Demo.returns Demo.response) VNone []
               Demo.kwargs w in
  fst run = Ok Demo.response /\
  exists v a, In (v, a) (records_of (trace (snd run))) /\ ~ (0 <= v)%Q.
Proof.
  split; [reflexivity |].
  exists (3 - 5)%Q. eexists. split; [left; reflexivity |].
  intros H. vm_compute in H. apply H. reflexivity.
Qed.

(** C7 (amended) on the concrete environment. *)
Lemma duration_records_nonnegative_witness :
  let w := Demo.initial [1%Q; 3%Q] false in
  let run := embeddings_metrics_wrapper Demo.env (Demo.returns Demo.response) VNone []
               Demo.kwargs w in
  (forall v a, In (v, a) (records_of (trace (snd run))) -> (0 <= v)%Q) /\
  fst (metrics_on_exception Demo.env (A:=value) None (ValueError "boom") w) =
    Raise (ValueError "boom").
Proof.
  intros w run.
  destruct (duration_records_nonnegative Demo.env (Demo.returns Demo.response)
              VNone [] Demo.kwargs w) as [H1 H2].
  split.
  - intros v a Hin. destruct (H1 (fun response x2 _ E => ltac:(
      inversion E; vm_compute; discriminate)) v a Hin) as [[] | H].
    exact H.
  - rewrite H2. reflexivity.
Defined.

(** C8 on the concrete environment. *)
Lemma span_ends_exactly_once_witness :
  let w := Demo.initial [] false in
  let e := ValueError "boom" in
  let run := embeddings_wrapper Demo.env (Demo.raises e) VNone [] Demo.kwargs w in
  let arun := aembeddings_wrapper Demo.env (Demo.raises e) VNone [] Demo.kwargs w in
  fst run = Raise e /\
  fst arun = Raise e /\
  trace (snd run) =
    [SpanStart "openai.embeddings" CLIENT [("llm.request.type", VStr "embedding")];
     SetRequestAttributes Demo.kwargs;
     SetSpanAttribute "llm.prompts.0.content" (VStr "hello");
     SpanEnd] /\
  Demo.span_ended (ext (snd run)) = 1%nat /\
  (exists d, trace (snd arun) = d /\ span_run NotStarted d = Some Ended).
Proof.
  intros w e run arun.
  destruct (span_ends_exactly_once Demo.env (Demo.raises e) VNone [] Demo.kwargs w
              eq_refl) as (_ & (d & Hd & Hrun & _) & Hraise).
  edestruct Hraise as (H1 & H2 & _);
    [vm_compute; reflexivity | vm_compute; reflexivity | vm_compute; reflexivity |].
  subst run arun. rewrite H1, H2.
  split; [reflexivity | split; [reflexivity | split; [reflexivity | split; [reflexivity |]]]].
  rewrite <- H2. exists d. split; [exact Hd | exact Hrun].
Defined.

(** C9, as stated, fails when the setter rejects a later element: the
    step logs the warning and returns normally, yet the attribute of the
    first element has been set and stays on the span. *)
Lemma prompt_attributes_before_failure_remain :
  let w := Demo.initial [] false in
  let run := _set_prompts Demo.env tt (VList [VStr "a"; VDict []]) w in
  fst run = Ok tt /\
  trace (snd run) =
    [SetSpanAttribute "llm.prompts.0.content" (VStr "a");
     SetSpanAttribute "llm.prompts.1.content" (VDict []);
     LogWarning
       "Failed to set prompts for openai span, error: invalid attribute value of type dict"] /\
  Demo.span_attributes (ext (snd run)) = [("llm.prompts.0.content", VStr "a")].
Proof. repeat split. Qed.

(** C9 (amended) on the concrete environment. *)
Lemma prompt_attribute_extraction_witness :
  let w := Demo.initial [] false in
  let rejected := TypeError "invalid attribute value of type dict" in
  trace (snd (_set_prompts Demo.env tt (VList [VStr "a"; VStr "b"]) w)) =
    [SetSpanAttribute "llm.prompts.0.content" (VStr "a");
     SetSpanAttribute "llm.prompts.1.content" (VStr "b")] /\
  trace (snd (_set_prompts Demo.env tt (VStr "a") w)) =
    [SetSpanAttribute "llm.prompts.0.content" (VStr "a")] /\
  trace (snd (_set_prompts Demo.env tt (VList [VStr "a"; VDict []; VStr "c"]) w)) =
    [SetSpanAttribute "llm.prompts.0.content" (VStr "a");
     SetSpanAttribute "llm.prompts.1.content" (VDict []);
     prompt_warning rejected].
Proof.
  intros w rejected.
  destruct (prompt_attribute_extraction Demo.env tt w eq_refl)
    as (Hlist & _ & Hstr & Hfail).
  split; [| split].
  - destruct (Hlist [VStr "a"; VStr "b"]) as [x' E].
    + discriminate.
    + intros ip [<- | [<- | []]] x; eexists; reflexivity.
    + rewrite E. reflexivity.
  - destruct (Hstr "a") as [x' E].
    + discriminate.
    + intros x. eexists. reflexivity.
    + rewrite E. reflexivity.
  - destruct (Hfail [VStr "a"; VDict []; VStr "c"]
                [(0%nat, VStr "a")] (1%nat, VDict []) [(2%nat, VStr "c")] rejected)
      as [x' E].
    + reflexivity.
    + intros iq [<- | []] x. eexists. reflexivity.
    + intros x. eexists. reflexivity.
    + reflexivity.
    + rewrite E. reflexivity.
Defined.

(** C10 on the concrete environment. *)
Lemma empty_prompt_guard_witness :
  let w := Demo.initial [] false in
  _set_prompts Demo.env tt (VStr "") w = (Ok tt, w) /\
  _set_prompts Demo.env tt (VList []) w = (Ok tt, w) /\
  _set_prompts Demo.env tt (dict_get [("model", VStr "m")] "input" VNone) w = (Ok tt, w).
Proof.
  intros w.
  split; [| split].
  - destruct (empty_prompt_guard Demo.env tt (VStr "") w) as (H & Hf & _).
    apply H. right. apply Hf. right. left. reflexivity.
  - destruct (empty_prompt_guard Demo.env tt (VList []) w) as (H & Hf & _).
    apply H. right. apply Hf. right. right. reflexivity.
  - destruct (empty_prompt_guard Demo.env tt VNone w) as (H & Hf & Hk).
    rewrite (Hk [("model", VStr "m")] eq_refl).
    apply H. right. apply Hf. left. reflexivity.
Defined.


(** * Further properties of the wrappers *)

Section Further.

Context {Ext span : Type} (env : collaborators Ext span).

(** ** Suppression and uncaught exceptions *)

(** X1. Under suppression the metrics wrapper and the synchronous
    tracing wrapper are the direct call: same outcome, same external
    state, and the trace of telemetry operations is left as it was. *)
Theorem suppressed_sync_wrappers_are_the_direct_call
    wrapped instance args kwargs (w : world Ext) :
  truthy (get_value_suppress env (ext w)) = true ->
  embeddings_metrics_wrapper env wrapped instance args kwargs w =
    (fst (wrapped args kwargs (ext w)),
     mk_world (snd (wrapped args kwargs (ext w))) (trace w)) /\
  embeddings_wrapper env wrapped instance args kwargs w =
    (fst (wrapped args kwargs (ext w)),
     mk_world (snd (wrapped args kwargs (ext w))) (trace w)).
Proof.
  intros Hs.
  rewrite metrics_wrapper_suppressed, embeddings_wrapper_suppressed by exact Hs.
  unfold direct_call, lift. destruct (wrapped args kwargs (ext w)); split; reflexivity.
Qed.

(** X2. An exception of the underlying call that is not an instance of
    [Exception] passes through the metrics wrapper untouched: the wrapper
    raises it, performs no measurement and does not read the clock again
    (the external state is the one the call left). *)
Theorem base_exception_passes_metrics_wrapper
    wrapped instance args kwargs (w : world Ext) e x2 :
  truthy (get_value_suppress env (ext w)) = false ->
  wrapped args kwargs (snd (time_time env (ext w))) = (Raise e, x2) ->
  isinstance_Exception e = false ->
  embeddings_metrics_wrapper env wrapped instance args kwargs w =
  (Raise e, mk_world x2 (trace w)).
Proof. apply metrics_wrapper_uncaught. Qed.

(** ** The two tracing wrappers *)

(** X3. With suppression inactive the asynchronous wrapper does what
    the synchronous one does: the same operations in the same order, the
    same external state, the same exception, and the same response
    (delivered as the value of the await). *)
Theorem tracing_wrappers_agree wrapped instance args kwargs (w : world Ext) :
  truthy (get_value_suppress env (ext w)) = false ->
  aembeddings_wrapper env wrapped instance args kwargs w =
  plain_outcome (embeddings_wrapper env wrapped instance args kwargs w).
Proof.
  intros Hs.
  rewrite embeddings_wrapper_active, aembeddings_wrapper_active by exact Hs.
  unfold plain_outcome, with_span.
  destruct (start_as_current_span env SPAN_NAME CLIENT
              [(SpanAttributes_LLM_REQUEST_TYPE, VStr LLM_REQUEST_TYPE)] (ext w))
    as [sp x1].
  unfold bind, ret.
  destruct (_handle_request env sp kwargs _) as [[[] | e] w1]; [| reflexivity].
  destruct (lift (wrapped args kwargs) w1) as [[response | e] w2]; [| reflexivity].
  destruct (_handle_response env response sp w2) as [[[] | e] w3]; reflexivity.
Qed.

(** X4. When [_set_request_attributes] raises, the underlying function
    is never called: whatever the wrapped callable is, both tracing
    wrappers raise that exception, having only started the span, called
    the request-attribute setter and ended the span. *)
Theorem request_attribute_failure_skips_the_call
    wrapped instance args kwargs (w : world Ext) sp x1 e x2 :
  let attributes := [(SpanAttributes_LLM_REQUEST_TYPE, VStr LLM_REQUEST_TYPE)] in
  truthy (get_value_suppress env (ext w)) = false ->
  start_as_current_span env SPAN_NAME CLIENT attributes (ext w) = (sp, x1) ->
  _set_request_attributes env sp kwargs x1 = (Raise e, x2) ->
  let final :=
    mk_world (span_exit env sp (Some e) x2)
      (trace w ++ [SpanStart SPAN_NAME CLIENT attributes;
                   SetRequestAttributes kwargs; SpanEnd]) in
  embeddings_wrapper env wrapped instance args kwargs w = (Raise e, final) /\
  aembeddings_wrapper env wrapped instance args kwargs w = (Raise e, final).
Proof.
  intros attributes Hs Hstart Hreq final.
  rewrite embeddings_wrapper_active, aembeddings_wrapper_active by exact Hs.
  unfold with_span. fold attributes. rewrite Hstart.
  unfold _handle_request, bind, emit, lift. cbn [ext trace]. rewrite Hreq.
  subst final. cbn [ext trace]. rewrite <- !app_assoc. split; reflexivity.
Qed.

(** X5. After the underlying call has returned, the response attributes
    are set once, from the normalized response, before the span ends; the
    wrapper returns the response itself, not the normalized mapping; and
    when the response-attribute setter raises, the wrapper raises that
    exception instead of returning the response, the span's exit being
    told of it. *)
Theorem response_attributes_then_span_end
    wrapped instance args kwargs (w w1 w3 : world Ext) sp x1 response x2 rd r x4 :
  let attributes := [(SpanAttributes_LLM_REQUEST_TYPE, VStr LLM_REQUEST_TYPE)] in
  truthy (get_value_suppress env (ext w)) = false ->
  start_as_current_span env SPAN_NAME CLIENT attributes (ext w) = (sp, x1) ->
  _handle_request env sp kwargs
    (mk_world x1 (trace w ++ [SpanStart SPAN_NAME CLIENT attributes])) = (Ok tt, w1) ->
  wrapped args kwargs (ext w1) = (Ok response, x2) ->
  response_as_dict env response (mk_world x2 (trace w1)) = (Ok rd, w3) ->
  _set_response_attributes env sp rd (ext w3) = (r, x4) ->
  let final :=
    mk_world (span_exit env sp (in_flight r) x4)
      (trace w1 ++ [SetResponseAttributes rd; SpanEnd]) in
  embeddings_wrapper env wrapped instance args kwargs w =
    (match r with Ok _ => Ok response | Raise e => Raise e end, final) /\
  aembeddings_wrapper env wrapped instance args kwargs w =
    (match r with Ok _ => Ok (Plain response) | Raise e => Raise e end, final).
Proof.
  intros attributes Hs Hstart Hreq Hw Hd Hset final.
  rewrite embeddings_wrapper_active, aembeddings_wrapper_active by exact Hs.
  rewrite (with_span_after_call env (fun v => v) _ _ _ _ _ _ _ _ _ Hstart Hreq Hw).
  rewrite (with_span_after_call env Plain _ _ _ _ _ _ _ _ _ Hstart Hreq Hw).
  assert (Ht : trace w3 = trace w1).
  { pose proof (response_as_dict_trace env response (mk_world x2 (trace w1))) as H.
    rewrite Hd in H. exact H. }
  unfold _handle_response, bind, emit, lift. rewrite Hd.
  cbn [ext trace]. rewrite Hset, Ht. subst final.
  destruct r as [[] | e]; cbn [in_flight ext trace]; rewrite <- !app_assoc;
    split; reflexivity.
Qed.

(** ** Prompt attributes *)

Lemma emits_only_bind_read {A B} (P : event -> bool) (f : Ext -> A)
    (k : A -> world Ext -> outcome B * world Ext) :
  (forall x, emits_only P (k (f x))) -> emits_only P (bind (read f) k).
Proof.
  intros Hk w r w' E. unfold bind, read in E. exact (Hk _ _ _ _ E).
Qed.

Lemma with_span_emits {A} (P : event -> bool) name kind attributes
    (body : span -> world Ext -> outcome A * world Ext) :
  P (SpanStart name kind attributes) = true ->
  P SpanEnd = true ->
  (forall sp, emits_only P (body sp)) ->
  emits_only P (with_span env name kind attributes body).
Proof.
  intros Hstart Hend Hbody w r w' E. unfold with_span in E.
  destruct (start_as_current_span env name kind attributes (ext w)) as [sp x1].
  destruct (body sp (mk_world x1 (trace w ++ [SpanStart name kind attributes])))
    as [r2 w2] eqn:Eb.
  inversion E; subst. destruct (Hbody sp _ _ _ Eb) as (d & T & F).
  cbn [trace] in T |- *.
  exists (SpanStart name kind attributes :: d ++ [SpanEnd])%list. split.
  - rewrite T, <- !app_assoc. reflexivity.
  - cbn [forallb]. rewrite Hstart, forallb_app, F. cbn. rewrite Hend. reflexivity.
Qed.

(** The body of the [with] block, when it can only perform operations
    satisfying [P]. *)
Lemma traced_body_emits_only {A} (P : event -> bool) (inj : value -> A)
    (wrapped : callable Ext) sp args kwargs :
  emits_only P (_handle_request env sp kwargs) ->
  (forall rd, P (SetResponseAttributes rd) = true) ->
  emits_only P
    (bind (_handle_request env sp kwargs) (fun _ =>
     bind (lift (wrapped args kwargs)) (fun response =>
     bind (_handle_response env response sp) (fun _ =>
     ret (inj response))))).
Proof.
  intros Hreq Hresp.
  apply emits_only_bind; [exact Hreq | intros _].
  apply emits_only_bind; [apply emits_only_lift | intros response].
  apply emits_only_bind; [| intros _; apply emits_only_ret].
  unfold _handle_response. apply emits_only_bind.
  - apply emits_nothing. apply response_as_dict_trace.
  - intros rd.
    apply emits_only_bind; [apply emits_only_emit; apply Hresp | intros _].
    apply emits_only_lift.
Qed.

(** X6. When prompt recording is disabled, neither tracing wrapper sets
    a prompt attribute or logs the prompt warning, whatever the request
    holds under [input]. *)
Theorem prompts_disabled_no_prompt_operation
    wrapped instance args kwargs (w : world Ext) :
  (forall x, should_send_prompts env x = false) ->
  (exists d,
     trace (snd (embeddings_wrapper env wrapped instance args kwargs w)) =
       (trace w ++ d)%list /\
     filter is_prompt_operation d = []) /\
  (exists d,
     trace (snd (aembeddings_wrapper env wrapped instance args kwargs w)) =
       (trace w ++ d)%list /\
     filter is_prompt_operation d = []).
Proof.
  intros Hoff.
  set (P := fun ev => negb (is_prompt_operation ev)).
  assert (Hfilter : forall d, forallb P d = true -> filter is_prompt_operation d = []).
  { induction d as [| ev d IH]; [reflexivity |]. cbn [forallb filter].
    intros H. apply andb_true_iff in H as [Hev Hd]. unfold P in Hev.
    apply negb_true_iff in Hev. rewrite Hev. exact (IH Hd). }
  assert (Hreq : forall sp, emits_only P (_handle_request env sp kwargs)).
  { intros sp. unfold _handle_request.
    apply emits_only_bind; [apply emits_only_emit; reflexivity | intros _].
    apply emits_only_bind; [apply emits_only_lift | intros _].
    apply emits_only_bind_read. intros x. rewrite Hoff. apply emits_only_ret. }
  assert (Hsync : emits_only P (embeddings_wrapper env wrapped instance args kwargs)).
  { unfold embeddings_wrapper. apply emits_only_bind; [apply emits_only_read |].
    intros suppress. destruct (truthy suppress); [apply emits_only_lift |].
    apply with_span_emits; try reflexivity. intros sp.
    apply (traced_body_emits_only P (fun v => v)); [apply Hreq | reflexivity]. }
  assert (Hasync : emits_only P (aembeddings_wrapper env wrapped instance args kwargs)).
  { unfold aembeddings_wrapper. apply emits_only_bind; [apply emits_only_read |].
    intros suppress. destruct (truthy suppress); [apply emits_only_ret |].
    apply with_span_emits; try reflexivity. intros sp.
    apply (traced_body_emits_only P Plain); [apply Hreq | reflexivity]. }
  split.
  - destruct (embeddings_wrapper env wrapped instance args kwargs w) as [r w'] eqn:E.
    destruct (Hsync _ _ _ E) as (d & T & F). exists d. split; [exact T | auto].
  - destruct (aembeddings_wrapper env wrapped instance args kwargs w) as [r w'] eqn:E.
    destruct (Hasync _ _ _ E) as (d & T & F). exists d. split; [exact T | auto].
Qed.

(** X7. A truthy prompt that is not a list (a string, a number, a
    mapping) is recorded by one call of the attribute setter, under
    [llm.prompts.0.content], with the prompt itself.  If the call returns,
    the step returns; if it raises an [Exception], the step logs one
    warning carrying the exception's message and returns normally; if it
    raises anything else, the step raises it and logs nothing. *)
Theorem scalar_prompt_recorded_under_index_zero sp prompt (w : world Ext) r x' :
  is_recording env sp (ext w) = true ->
  truthy prompt = true ->
  (forall items, prompt <> VList items) ->
  _set_span_attribute env sp "llm.prompts.0.content" prompt (ext w) = (r, x') ->
  let set := SetSpanAttribute "llm.prompts.0.content" prompt in
  _set_prompts env sp prompt w =
  match r with
  | Ok _ => (Ok tt, mk_world x' (trace w ++ [set]))
  | Raise e =>
      if isinstance_Exception e
      then (Ok tt, mk_world x' (trace w ++ [set; prompt_warning e]))
      else (Raise e, mk_world x' (trace w ++ [set]))
  end.
Proof.
  intros Hrec Htrue Hnot Hset set.
  unfold _set_prompts, bind at 1, read. rewrite Hrec, Htrue. cbn [negb orb].
  change (SpanAttributes_LLM_PROMPTS ++ ".0.content") with "llm.prompts.0.content".
  destruct prompt as [| b | z | q | s | items | d | c i];
    try (exfalso; exact (Hnot items eq_refl));
    unfold try_except, bind, emit, lift; cbn [ext trace]; rewrite Hset;
    destruct r as [[] | e]; try reflexivity;
    destruct (isinstance_Exception e); cbn [ext trace];
    rewrite <- ?app_assoc; reflexivity.
Qed.

(** X8. An exception outside [Exception] raised by the attribute setter
    on an element of a list prompt is not caught: the step raises it
    after the calls for the elements up to that one, visits no later
    element and logs no warning. *)
Theorem list_prompt_base_exception_propagates
    sp items pre ip post e (w : world Ext) :
  is_recording env sp (ext w) = true ->
  enumerate items = (pre ++ ip :: post)%list ->
  (forall iq, In iq pre -> sets_normally env sp iq) ->
  set_raises env sp ip e ->
  isinstance_Exception e = false ->
  exists x',
    _set_prompts env sp (VList items) w =
    (Raise e, mk_world x' (trace w ++ map prompt_event pre ++ [prompt_event ip])).
Proof.
  intros Hrec Henum Hok Hfail He.
  unfold _set_prompts, bind at 1, read. rewrite Hrec.
  destruct items as [| p0 items].
  { destruct pre; discriminate. }
  cbn [negb truthy orb]. unfold try_except. rewrite Henum.
  match goal with
  | |- context [for_each _ ?b w] =>
      destruct (prompt_loop_fail env sp b (fun i p w => eq_refl)
                  pre post ip e w Hok Hfail) as [x' E]
  end.
  rewrite E, He. exists x'. reflexivity.
Qed.

(** X9. The attribute names of a list prompt never collide: different
    indices give different names, so the names used for the elements of a
    list are pairwise distinct and no element overwrites another. *)
Theorem prompt_names_distinct :
  (forall i j, prompt_name i = prompt_name j -> i = j) /\
  (forall items : list value,
     NoDup (map (fun ip : nat * value => prompt_name (fst ip)) (enumerate items))).
Proof.
  assert (Hlen : forall s t, String.length (s ++ t) = (String.length s + String.length t)%nat).
  { induction s as [| c s IH]; intros t; cbn; [reflexivity | rewrite IH; reflexivity]. }
  assert (Hcancel : forall u s t, s ++ u = t ++ u -> s = t).
  { intros u. induction s as [| c s IH]; intros [| c' t] H; cbn in H.
    - reflexivity.
    - apply (f_equal String.length) in H. cbn in H. rewrite Hlen in H. lia.
    - apply (f_equal String.length) in H. cbn in H. rewrite Hlen in H. lia.
    - injection H as Hc Hs. rewrite Hc, (IH t Hs). reflexivity. }
  assert (Hinj : forall i j, prompt_name i = prompt_name j -> i = j).
  { intros i j H. unfold prompt_name, SpanAttributes_LLM_PROMPTS in H. cbn in H.
    injection H as H. apply Hcancel in H. unfold str_of_nat in H.
    apply (f_equal NilEmpty.uint_of_string) in H. rewrite !NilEmpty.usu in H.
    injection H as H. exact (Unsigned.to_uint_inj _ _ H). }
  assert (Hfst : forall (l : list nat) (l' : list value),
            List.length l = List.length l' -> map fst (combine l l') = l).
  { induction l as [| a l IH]; intros [| b l'] Hl; cbn in *; try congruence.
    injection Hl as Hl. rewrite (IH l' Hl). reflexivity. }
  split; [exact Hinj |].
  intros items. rewrite <- (map_map fst prompt_name).
  unfold enumerate. rewrite Hfst by apply length_seq.
  apply NoDup_map_NoDup_ForallPairs; [| apply seq_NoDup].
  intros i j _ _. apply Hinj.
Qed.

(** ** Measurements *)

Lemma token_adds_tagged (allowed : list string) (shared : attrs)
    (u : list (string * value)) :
  Forall (token_tagged shared) (token_adds allowed shared u).
Proof.
  apply Forall_forall. intros add Hin. unfold token_adds in Hin.
  apply in_map_iff in Hin as (entry & <- & _). eexists. reflexivity.
Qed.

Lemma vec_size_of_nonnegative (rd : value) (n : Z) :
  vec_size_of rd = Ok n -> (0 <= n)%Z.
Proof.
  unfold vec_size_of. intros H.
  destruct (py_get rd "data" VNone) as [data | e]; [| discriminate].
  destruct (py_index0 (py_or data (VList [VDict []]))) as [first | e]; [| discriminate].
  destruct (py_get first "embedding" (VList [])) as [vec | e]; [| discriminate].
  destruct vec; cbn in H; inversion H; lia.
Qed.

(** What the success path performs, whatever becomes of it. *)
Lemma metrics_on_success_shape response t0 t1 (w w' : world Ext) r :
  metrics_on_success env response t0 t1 w = (r, w') ->
  exists shared adds,
    (exists model base,
       shared = [("llm.response.model", model); ("server.address", VStr base)]) /\
    Forall (token_tagged shared) adds /\
    ((r = Ok response /\
      exists n,
        (0 <= n)%Z /\
        trace w' =
        (trace w ++ map token_add_event adds ++
         [CounterAdd VectorSizeCounter (VInt n) shared;
          HistogramRecord (t1 - t0) shared])%list) \/
     (exists e,
        r = Raise e /\ trace w' = (trace w ++ map token_add_event adds)%list)).
Proof.
  intros H.
  pose proof (response_as_dict_trace env response w) as Ht.
  assert (Hnone : forall e, r = Raise e -> trace w' = trace w ->
    exists shared adds,
      (exists model base,
         shared = [("llm.response.model", model); ("server.address", VStr base)]) /\
      Forall (token_tagged shared) adds /\
      ((r = Ok response /\
        exists n,
          (0 <= n)%Z /\
          trace w' =
          (trace w ++ map token_add_event adds ++
           [CounterAdd VectorSizeCounter (VInt n) shared;
            HistogramRecord (t1 - t0) shared])%list) \/
       (exists e,
          r = Raise e /\ trace w' = (trace w ++ map token_add_event adds)%list))).
  { intros e Hr Htr.
    exists [("llm.response.model", VNone); ("server.address", VStr "")], [].
    split; [eauto | split; [constructor | right]].
    exists e. cbn. rewrite app_nil_r. split; assumption. }
  destruct (response_as_dict env response w) as [[rd | e] w4] eqn:Hd;
    cbn [snd] in Ht.
  2: { unfold metrics_on_success, bind at 1 in H. rewrite Hd in H.
       inversion H; subst. apply (Hnone e); congruence. }
  destruct rd as [| b | z | q | s | l | d | c i];
    try (unfold metrics_on_success, bind at 1 in H; rewrite Hd in H;
         unfold bind at 1, pure at 1 in H; cbn [py_get] in H;
         inversion H; subst; eapply Hnone; [reflexivity | congruence]).
  destruct (dict_get d "usage" VNone) as [| b | z | q | s | l | u | c i] eqn:Eu.
  all: try (unfold metrics_on_success, bind at 1 in H; rewrite Hd in H;
    unfold bind at 1, pure at 1 in H; cbn [py_get] in H;
    unfold bind at 1, read at 1 in H;
    unfold bind at 1, pure at 1 in H; rewrite Eu in H;
    cbn [is_not_None] in H; unfold bind at 1 in H;
    unfold bind at 1, pure at 1 in H; cbn [py_items] in H;
    inversion H; subst; eapply Hnone; [reflexivity | congruence]).
  - rewrite (metrics_on_success_run env response t0 t1 w w4 d Hd) in H
      by (rewrite Eu; exact I).
    rewrite Eu in H. cbn [usage_events] in H.
    exists (shared_attributes_of d (_get_openai_base_url env (ext w4))), [].
    split; [unfold shared_attributes_of; eauto | split; [constructor |]].
    destruct (vec_size_of (VDict d)) as [n | e] eqn:Hn; inversion H; subst;
      cbn [trace map app].
    + left. split; [reflexivity |]. exists n.
      split; [exact (vec_size_of_nonnegative _ _ Hn) | reflexivity].
    + right. exists e. split; reflexivity.
  - rewrite (metrics_on_success_run env response t0 t1 w w4 d Hd) in H
      by (rewrite Eu; exact I).
    rewrite Eu in H. cbn [usage_events] in H.
    exists (shared_attributes_of d (_get_openai_base_url env (ext w4))),
      (token_adds (OPENAI_LLM_USAGE_TOKEN_TYPES env)
         (shared_attributes_of d (_get_openai_base_url env (ext w4))) u).
    split; [unfold shared_attributes_of; eauto | split; [apply token_adds_tagged |]].
    destruct (vec_size_of (VDict d)) as [n | e] eqn:Hn; inversion H; subst;
      cbn [trace].
    + left. split; [reflexivity |]. exists n.
      split; [exact (vec_size_of_nonnegative _ _ Hn) | reflexivity].
    + right. exists e. split; reflexivity.
Qed.

Lemma tagged_adds_success_shaped (model : value) (base : string)
    (adds : list (value * attrs)) :
  Forall (token_tagged [("llm.response.model", model); ("server.address", VStr base)])
    adds ->
  forallb is_metric (map token_add_event adds) = true /\
  forallb success_shaped (map token_add_event adds) = true.
Proof.
  induction 1 as [| add adds [name Hadd] _ [IH1 IH2]]; [split; reflexivity |].
  cbn [map forallb]. rewrite IH1, IH2. unfold token_add_event.
  rewrite Hadd. split; reflexivity.
Qed.

(** X10. Neither tracing wrapper ever adds to a counter or records to
    the histogram, suppressed or not, and whatever the helpers and the
    underlying call do. *)
Theorem tracing_wrappers_touch_no_instrument
    wrapped instance args kwargs (w : world Ext) :
  (exists d,
     trace (snd (embeddings_wrapper env wrapped instance args kwargs w)) =
       (trace w ++ d)%list /\
     filter is_metric d = []) /\
  (exists d,
     trace (snd (aembeddings_wrapper env wrapped instance args kwargs w)) =
       (trace w ++ d)%list /\
     filter is_metric d = []).
Proof.
  set (P := fun ev => negb (is_metric ev)).
  assert (Hfilter : forall d, forallb P d = true -> filter is_metric d = []).
  { induction d as [| ev d IH]; [reflexivity |]. cbn [forallb filter].
    intros H. apply andb_true_iff in H as [Hev Hd]. unfold P in Hev.
    apply negb_true_iff in Hev. rewrite Hev. exact (IH Hd). }
  assert (Hreq : forall sp, emits_only P (_handle_request env sp kwargs)).
  { intros sp. apply (emits_only_weaken request_phase); [| apply handle_request_emits].
    intros ev; destruct ev; cbn; congruence. }
  assert (Hsync : emits_only P (embeddings_wrapper env wrapped instance args kwargs)).
  { unfold embeddings_wrapper. apply emits_only_bind; [apply emits_only_read |].
    intros suppress. destruct (truthy suppress); [apply emits_only_lift |].
    apply with_span_emits; try reflexivity. intros sp.
    apply (traced_body_emits_only P (fun v => v)); [apply Hreq | reflexivity]. }
  assert (Hasync : emits_only P (aembeddings_wrapper env wrapped instance args kwargs)).
  { unfold aembeddings_wrapper. apply emits_only_bind; [apply emits_only_read |].
    intros suppress. destruct (truthy suppress); [apply emits_only_ret |].
    apply with_span_emits; try reflexivity. intros sp.
    apply (traced_body_emits_only P Plain); [apply Hreq | reflexivity]. }
  split.
  - destruct (embeddings_wrapper env wrapped instance args kwargs w) as [r w'] eqn:E.
    destruct (Hsync _ _ _ E) as (d & T & F). exists d. split; [exact T | auto].
  - destruct (aembeddings_wrapper env wrapped instance args kwargs w) as [r w'] eqn:E.
    destruct (Hasync _ _ _ E) as (d & T & F). exists d. split; [exact T | auto].
Qed.

(** X11. When the underlying call returns, the metrics wrapper either
    returns the response, having performed the token adds followed by
    exactly one vector-size add and one record of [end_time - start_time],
    all carrying the same shared attributes; or it raises the exception of
    a telemetry step, having performed token adds only.  The vector-size
    add and the duration record occur together or not at all, and a
    failing telemetry step is not counted by the error-path adds. *)
Theorem success_measurements_all_or_nothing
    wrapped instance args kwargs (w : world Ext) response x2 :
  truthy (get_value_suppress env (ext w)) = false ->
  wrapped args kwargs (snd (time_time env (ext w))) = (Ok response, x2) ->
  let run := embeddings_metrics_wrapper env wrapped instance args kwargs w in
  let duration := (fst (time_time env x2) - fst (time_time env (ext w)))%Q in
  exists shared adds,
    (exists model base,
       shared = [("llm.response.model", model); ("server.address", VStr base)]) /\
    Forall (token_tagged shared) adds /\
    ((fst run = Ok response /\
      exists n,
        (0 <= n)%Z /\
        trace (snd run) =
        (trace w ++ map token_add_event adds ++
         [CounterAdd VectorSizeCounter (VInt n) shared;
          HistogramRecord duration shared])%list) \/
     (exists e,
        fst run = Raise e /\
        trace (snd run) = (trace w ++ map token_add_event adds)%list)).
Proof.
  intros Hs Hw run duration. subst run.
  rewrite (metrics_wrapper_returned env _ _ _ _ _ _ _ Hs Hw).
  destruct (metrics_on_success env response
              (fst (time_time env (ext w))) (fst (time_time env x2))
              (mk_world (snd (time_time env x2)) (trace w))) as [r w'] eqn:Hrun.
  exact (metrics_on_success_shape _ _ _ _ _ _ Hrun).
Qed.

(** X12. On every invocation the metrics wrapper performs operations on
    the metric instruments only, and the measurements of one invocation
    all carry the error tags ([error.type], no [llm.response.model]) or
    all carry the success tags ([llm.response.model], no [error.type]):
    the two shapes are never mixed. *)
Theorem measurement_tags_never_mixed wrapped instance args kwargs (w : world Ext) :
  exists d,
    trace (snd (embeddings_metrics_wrapper env wrapped instance args kwargs w)) =
      (trace w ++ d)%list /\
    forallb is_metric d = true /\
    (forallb error_shaped d = true \/ forallb success_shaped d = true).
Proof.
  destruct (truthy (get_value_suppress env (ext w))) eqn:Hs.
  { rewrite metrics_wrapper_suppressed, direct_call_trace by exact Hs.
    exists []. rewrite app_nil_r. repeat split. left. reflexivity. }
  destruct (wrapped args kwargs (snd (time_time env (ext w))))
    as [[response | e] x2] eqn:Hw.
  - rewrite (metrics_wrapper_returned env _ _ _ _ _ _ _ Hs Hw).
    destruct (metrics_on_success env response
                (fst (time_time env (ext w))) (fst (time_time env x2))
                (mk_world (snd (time_time env x2)) (trace w))) as [r w'] eqn:Hrun.
    destruct (metrics_on_success_shape _ _ _ _ _ _ Hrun)
      as (shared & adds & (model & base & ->) & Htag & Hcase).
    destruct (tagged_adds_success_shaped model base adds Htag) as [Hm Hsh].
    cbn [snd trace] in Hcase |- *.
    destruct Hcase as [(_ & n & _ & T) | (e & _ & T)]; rewrite T; eexists;
      (split; [reflexivity |]); rewrite ?forallb_app, Hm, Hsh;
      split; try reflexivity; right; reflexivity.
  - destruct (isinstance_Exception e) eqn:He.
    + rewrite (metrics_wrapper_caught env _ _ _ _ _ _ _ Hs Hw He).
      rewrite metrics_on_exception_run. cbn [snd trace ext fst].
      eexists. split; [reflexivity |]. unfold error_telemetry.
      destruct (negb (Qle_bool _ 0)); split; try reflexivity; left; reflexivity.
    + rewrite (metrics_wrapper_uncaught env _ _ _ _ _ _ _ Hs Hw He).
      exists []. cbn [snd trace]. rewrite app_nil_r. repeat split. left. reflexivity.
Qed.

(** X13. A normalized response that is not a mapping, or whose [usage]
    is neither absent nor a mapping, makes the metrics wrapper raise an
    [AttributeError] although the underlying call returned, before any
    measurement: the trace is left as it was. *)
Theorem malformed_response_raises_before_measuring
    wrapped instance args kwargs (w w4 : world Ext) response x2 rd :
  truthy (get_value_suppress env (ext w)) = false ->
  wrapped args kwargs (snd (time_time env (ext w))) = (Ok response, x2) ->
  response_as_dict env response (mk_world (snd (time_time env x2)) (trace w)) =
    (Ok rd, w4) ->
  (forall d, rd = VDict d -> ~ usage_well_formed (dict_get d "usage" VNone)) ->
  exists msg,
    embeddings_metrics_wrapper env wrapped instance args kwargs w =
    (Raise (AttributeError msg), mk_world (ext w4) (trace w)).
Proof.
  intros Hs Hw Hd Hbad.
  assert (Ht : trace w4 = trace w).
  { pose proof (response_as_dict_trace env response
                  (mk_world (snd (time_time env x2)) (trace w))) as H.
    rewrite Hd in H. exact H. }
  rewrite (metrics_wrapper_returned env _ _ _ _ _ _ _ Hs Hw).
  unfold metrics_on_success, bind at 1. rewrite Hd.
  unfold bind at 1, pure at 1.
  destruct rd as [| b | z | q | s | l | d | c i]; cbn [py_get];
    try (eexists; rewrite <- Ht; destruct w4; reflexivity).
  specialize (Hbad d eq_refl).
  unfold bind at 1, read at 1. unfold bind at 1, pure at 1.
  destruct (dict_get d "usage" VNone) as [| b | z | q | s | l | u | c i];
    cbn [usage_well_formed] in Hbad; try (exfalso; exact (Hbad I));
    cbn [is_not_None]; unfold bind at 1; unfold bind at 1, pure at 1;
    cbn [py_items]; eexists; rewrite <- Ht; destruct w4; reflexivity.
Qed.

(** X14. Every amount the metrics wrapper adds to the vector-size
    counter is a non-negative integer. *)
Theorem vector_size_amounts_nonnegative
    wrapped instance args kwargs (w : world Ext) amount a :
  In (amount, a)
     (adds_of VectorSizeCounter
        (trace (snd (embeddings_metrics_wrapper env wrapped instance args kwargs w)))) ->
  In (amount, a) (adds_of VectorSizeCounter (trace w)) \/
  exists n, amount = VInt n /\ (0 <= n)%Z.
Proof.
  intros Hin.
  destruct (truthy (get_value_suppress env (ext w))) eqn:Hs.
  { rewrite metrics_wrapper_suppressed, direct_call_trace in Hin by exact Hs.
    left. exact Hin. }
  destruct (wrapped args kwargs (snd (time_time env (ext w))))
    as [[response | e] x2] eqn:Hw.
  - rewrite (metrics_wrapper_returned env _ _ _ _ _ _ _ Hs Hw) in Hin.
    destruct (metrics_on_success env response
                (fst (time_time env (ext w))) (fst (time_time env x2))
                (mk_world (snd (time_time env x2)) (trace w))) as [r w'] eqn:Hrun.
    destruct (metrics_on_success_shape _ _ _ _ _ _ Hrun)
      as (shared & adds & _ & _ & Hcase).
    cbn [snd trace] in Hcase, Hin.
    destruct Hcase as [(_ & n & Hn & T) | (e & _ & T)]; rewrite T in Hin;
      rewrite !adds_of_app in Hin;
      rewrite (proj1 (proj2 (adds_of_token_events adds))) in Hin;
      cbn [adds_of app] in Hin; rewrite ?app_nil_r in Hin.
    + apply in_app_or in Hin as [Hin | [Heq | []]]; [left; exact Hin | right].
      inversion Heq; subst. exists n. split; [reflexivity | exact Hn].
    + left. exact Hin.
  - destruct (isinstance_Exception e) eqn:He.
    + rewrite (metrics_wrapper_caught env _ _ _ _ _ _ _ Hs Hw He) in Hin.
      rewrite metrics_on_exception_run in Hin. cbn [snd trace ext fst] in Hin.
      unfold error_telemetry in Hin. rewrite !adds_of_app in Hin.
      destruct (negb (Qle_bool _ 0)); cbn [adds_of app] in Hin;
        rewrite ?app_nil_r in Hin.
      all: (apply in_app_or in Hin as [Hin | [Heq | []]]; [left; exact Hin | right]);
        inversion Heq; subst; exists 1%Z; split; [reflexivity | lia].
    + rewrite (metrics_wrapper_uncaught env _ _ _ _ _ _ _ Hs Hw He) in Hin.
      left. exact Hin.
Qed.

(** X15. The vector size is read off the first element of [data] only:
    the later elements of a batch do not count. *)
Theorem vector_size_reads_first_element_only d x rest :
  dict_lookup "data" d = Some (VList (x :: rest)) ->
  vec_size_of (VDict d) = vec_size_of (VDict [("data", VList [x])]).
Proof.
  intros H. unfold vec_size_of, py_get, dict_get. rewrite H. reflexivity.
Qed.

(** X16. A prompt the attribute setter rejects never blocks the
    request: when [_set_request_attributes] returns normally and the
    attribute setter raises nothing but [Exception]s, [_handle_request]
    returns normally, so the wrapper goes on to the underlying call. *)
Theorem rejected_prompt_never_blocks_the_request sp kwargs (w : world Ext) x2 :
  _set_request_attributes env sp kwargs (ext w) = (Ok tt, x2) ->
  (forall name v x e x',
     _set_span_attribute env sp name v x = (Raise e, x') ->
     isinstance_Exception e = true) ->
  exists w1, _handle_request env sp kwargs w = (Ok tt, w1).
Proof.
  intros Hreq Hexc. unfold _handle_request.
  unfold bind at 1, emit at 1. unfold bind at 1, lift at 1. cbn [ext trace].
  rewrite Hreq. unfold bind at 1, read at 1. cbn [ext].
  destruct (should_send_prompts env x2); [| eexists; reflexivity].
  apply set_prompts_guarded. exact Hexc.
Qed.

End Further.


(** ** The further properties on the concrete environment *)

(** X1 on the concrete environment. *)
Lemma suppressed_sync_wrappers_are_the_direct_call_witness :
  let w := Demo.initial [1%Q; 3%Q] true in
  let wrapped := Demo.raises (ValueError "boom") in
  embeddings_metrics_wrapper Demo.env wrapped VNone [] Demo.kwargs w =
    (Raise (ValueError "boom"), mk_world (Demo.called (ext w)) []) /\
  embeddings_wrapper Demo.env wrapped VNone [] Demo.kwargs w =
    (Raise (ValueError "boom"), mk_world (Demo.called (ext w)) []).
Proof.
  intros w wrapped.
  exact (suppressed_sync_wrappers_are_the_direct_call Demo.env wrapped VNone []
           Demo.kwargs w eq_refl).
Defined.

(** X2 on the concrete environment. *)
Lemma base_exception_passes_metrics_wrapper_witness :
  let w := Demo.initial [1%Q; 3%Q] false in
  embeddings_metrics_wrapper Demo.env (Demo.raises KeyboardInterrupt) VNone []
    Demo.kwargs w =
  (Raise KeyboardInterrupt,
   mk_world (Demo.called (snd (Demo.read_clock (ext w)))) []).
Proof.
  intros w.
  exact (base_exception_passes_metrics_wrapper Demo.env
           (Demo.raises KeyboardInterrupt) VNone [] Demo.kwargs w
           KeyboardInterrupt _ eq_refl eq_refl eq_refl).
Defined.

(** X3 on the concrete environment. *)
Lemma tracing_wrappers_agree_witness :
  let w := Demo.initial [] false in
  aembeddings_wrapper Demo.env (Demo.returns Demo.response) VNone [] Demo.kwargs w =
  plain_outcome
    (embeddings_wrapper Demo.env (Demo.returns Demo.response) VNone [] Demo.kwargs w).
Proof.
  intros w.
  exact (tracing_wrappers_agree Demo.env (Demo.returns Demo.response) VNone []
           Demo.kwargs w eq_refl).
Defined.

(** X4 on the concrete environment: a request without a model, the
    call would have returned, and it never runs. *)
Lemma request_attribute_failure_skips_the_call_witness :
  let c := Demo.custom Demo.model_required Demo.strict_set_attribute in
  let w := Demo.initial [] false in
  let run := embeddings_wrapper c (Demo.returns Demo.response) VNone []
               [("input", VStr "hello")] w in
  fst run = Raise (KeyError "model") /\
  Demo.calls (ext (snd run)) = 0%nat /\
  Demo.span_ended (ext (snd run)) = 1%nat.
Proof.
  intros c w run.
  edestruct (request_attribute_failure_skips_the_call c (Demo.returns Demo.response)
               VNone [] [("input", VStr "hello")] w) as [H _];
    [reflexivity | reflexivity | reflexivity |].
  subst run. rewrite H. repeat split.
Defined.

(** X5 on the concrete environment: the setter accepts a mapping and
    rejects a list. *)
Lemma response_attributes_then_span_end_witness :
  let w := Demo.initial [] false in
  let good := embeddings_wrapper Demo.env (Demo.returns Demo.response) VNone []
                Demo.kwargs w in
  let bad := embeddings_wrapper Demo.env (Demo.returns (VList [])) VNone []
               Demo.kwargs w in
  fst good = Ok Demo.response /\
  fst bad = Raise (AttributeError "'list' object has no attribute 'get'") /\
  Demo.calls (ext (snd bad)) = 1%nat.
Proof.
  intros w good bad. split.
  - edestruct (response_attributes_then_span_end Demo.env (Demo.returns Demo.response)
                 VNone [] Demo.kwargs w) as [H _];
      [reflexivity | reflexivity | vm_compute; reflexivity | vm_compute; reflexivity
      | vm_compute; reflexivity | vm_compute; reflexivity |].
    subst good. rewrite H. reflexivity.
  - edestruct (response_attributes_then_span_end Demo.env (Demo.returns (VList []))
                 VNone [] Demo.kwargs w) as [H _];
      [reflexivity | reflexivity | vm_compute; reflexivity | vm_compute; reflexivity
      | vm_compute; reflexivity | vm_compute; reflexivity |].
    subst bad. rewrite H. split; reflexivity.
Defined.

(** X6 on the concrete environment. *)
Lemma prompts_disabled_no_prompt_operation_witness :
  let w := Demo.initial [] false in
  exists d,
    trace (snd (embeddings_wrapper Demo.without_prompts (Demo.returns Demo.response)
                  VNone [] Demo.kwargs w)) = d /\
    filter is_prompt_operation d = [].
Proof.
  intros w.
  destruct (prompts_disabled_no_prompt_operation Demo.without_prompts
              (Demo.returns Demo.response) VNone [] Demo.kwargs w
              (fun _ => eq_refl)) as [(d & T & F) _].
  exists d. split; [exact T | exact F].
Defined.

(** X7 on the concrete environment: a number as prompt. *)
Lemma scalar_prompt_recorded_under_index_zero_witness :
  let w := Demo.initial [] false in
  _set_prompts Demo.env tt (VInt 7) w =
  (Ok tt,
   mk_world (Demo.store (ext w) [("llm.prompts.0.content", VInt 7)])
     [SetSpanAttribute "llm.prompts.0.content" (VInt 7)]).
Proof.
  intros w.
  refine (scalar_prompt_recorded_under_index_zero Demo.env tt (VInt 7) w (Ok tt) _
            eq_refl eq_refl _ eq_refl).
  intros items H. discriminate H.
Defined.

(** X8 on the concrete environment. *)
Lemma list_prompt_base_exception_propagates_witness :
  let c := Demo.custom Demo.model_required Demo.interrupted_set_attribute in
  let w := Demo.initial [] false in
  let run := _set_prompts c tt (VList [VStr "a"; VInt 1; VStr "c"]) w in
  fst run = Raise KeyboardInterrupt /\
  trace (snd run) =
    [SetSpanAttribute "llm.prompts.0.content" (VStr "a");
     SetSpanAttribute "llm.prompts.1.content" (VInt 1)].
Proof.
  intros c w run.
  destruct (list_prompt_base_exception_propagates c tt
              [VStr "a"; VInt 1; VStr "c"]
              [(0%nat, VStr "a")] (1%nat, VInt 1) [(2%nat, VStr "c")]
              KeyboardInterrupt w) as [x' E].
  - reflexivity.
  - reflexivity.
  - intros iq [<- | []] x. eexists. reflexivity.
  - intros x. eexists. reflexivity.
  - reflexivity.
  - subst run. rewrite E. split; reflexivity.
Defined.

(** X9 at an index. *)
Lemma prompt_names_distinct_witness :
  prompt_name 3 = "llm.prompts.3.content" /\
  3%nat = 3%nat /\
  NoDup (map (fun ip : nat * value => prompt_name (fst ip))
           (enumerate [VStr "a"; VStr "b"])).
Proof.
  split; [reflexivity | split].
  - exact (proj1 prompt_names_distinct 3%nat 3%nat eq_refl).
  - exact (proj2 prompt_names_distinct [VStr "a"; VStr "b"]).
Defined.

(** X11 on the concrete environment, for a response that can be
    measured and for one whose first result carries no vector. *)
Lemma success_measurements_all_or_nothing_witness :
  let w := Demo.initial [1%Q; 3%Q] false in
  exists shared adds,
    Forall (token_tagged shared) adds /\
    exists n,
      trace (snd (embeddings_metrics_wrapper Demo.env (Demo.returns Demo.response)
                    VNone [] Demo.kwargs w)) =
      ([] ++ map token_add_event adds ++
       [CounterAdd VectorSizeCounter (VInt n) shared;
        HistogramRecord (3 - 1)%Q shared])%list.
Proof.
  intros w.
  edestruct (success_measurements_all_or_nothing Demo.env (Demo.returns Demo.response)
               VNone [] Demo.kwargs w Demo.response)
    as (shared & adds & _ & Htag & Hcase); [reflexivity | reflexivity |].
  exists shared, adds. split; [exact Htag |].
  destruct Hcase as [(_ & n & _ & T) | (e & He & _)].
  - exists n. exact T.
  - vm_compute in He. discriminate He.
Defined.

(** X13 on the concrete environment: [usage] is a number. *)
Lemma malformed_response_raises_before_measuring_witness :
  let w := Demo.initial [1%Q; 3%Q] false in
  let response := VDict [("usage", VInt 3)] in
  exists msg,
    embeddings_metrics_wrapper Demo.env (Demo.returns response) VNone [] Demo.kwargs w =
    (Raise (AttributeError msg),
     mk_world (Demo.called (Demo.mk_state [] false true true false [] 0 0)) []).
Proof.
  intros w response.
  refine (malformed_response_raises_before_measuring Demo.env (Demo.returns response)
            VNone [] Demo.kwargs w _ response _ response eq_refl eq_refl eq_refl _).
  intros d H. injection H as <-. cbn. exact (fun F => F).
Defined.

(** X14 on the concrete environment. *)
Lemma vector_size_amounts_nonnegative_witness :
  let w := Demo.initial [1%Q; 3%Q] false in
  let shared :=
    [("llm.response.model", VStr "text-embedding-ada-002");
     ("server.address", VStr "https://api.openai.com/v1/")] in
  exists n, VInt 2 = VInt n /\ (0 <= n)%Z.
Proof.
  intros w shared.
  destruct (vector_size_amounts_nonnegative Demo.env (Demo.returns Demo.response)
              VNone [] Demo.kwargs w (VInt 2) shared (or_introl eq_refl))
    as [[] | H].
  exact H.
Defined.

(** X15 on a batch of two. *)
Lemma vector_size_reads_first_element_only_witness :
  vec_size_of
    (VDict [("data", VList [VDict [("embedding", VList [VInt 1; VInt 2])];
                            VDict [("embedding", VList [VInt 1; VInt 2; VInt 3])]])]) =
  vec_size_of (VDict [("data", VList [VDict [("embedding", VList [VInt 1; VInt 2])]])]).
Proof.
  exact (vector_size_reads_first_element_only
           [("data", VList [VDict [("embedding", VList [VInt 1; VInt 2])];
                            VDict [("embedding", VList [VInt 1; VInt 2; VInt 3])]])]
           (VDict [("embedding", VList [VInt 1; VInt 2])])
           [VDict [("embedding", VList [VInt 1; VInt 2; VInt 3])]]
           eq_refl).
Defined.

(** X16 on the concrete environment: the input is a list holding a
    mapping, which the setter rejects. *)
Lemma rejected_prompt_never_blocks_the_request_witness :
  let w := Demo.initial [] false in
  exists w1,
    _handle_request Demo.env tt
      [("model", VStr "m"); ("input", VList [VDict []])] w = (Ok tt, w1).
Proof.
  intros w.
  refine (rejected_prompt_never_blocks_the_request Demo.env tt
            [("model", VStr "m"); ("input", VList [VDict []])] w _ eq_refl _).
  intros name v x e x' E. cbn in E. unfold Demo.strict_set_attribute in E.
  destruct v; inversion E; reflexivity.
Defined.
